(** * api-server.py: the HTTP bridge in front of the document store

    A shallow embedding of [src/api-server.py]: the basic-authentication
    predicate, the eight action handlers and the health handler, over an
    abstract database driver.

    Conventions.
    - A Python [str] that comes from an HTTP header is a Rocq [string] (WSGI
      header values are latin-1 text, one character per byte).  The text
      obtained by [bytes.decode('utf-8')] is a list of code points.
    - [bytes] are lists of integers in [0, 256).
    - A call that may raise returns [option] (when the exception is only
      swallowed) or [result] (when its text is observed).
    - A handler is a function from the state of the world (the store behind
      the shared client, and a log of what the handler did) to a result and a
      new state.

    Left out: floating-point numbers in bodies, the [logger] calls, and the
    routing done by Flask before a handler is entered. *)

From Stdlib Require Import ZArith List String Ascii Bool Lia DecimalString.
Import ListNotations.
Local Open Scope string_scope.
Local Open Scope list_scope.
Local Open Scope Z_scope.
Local Set Warnings "-register-all".

(** ** Part I. Definitions *)

(** *** Text helpers *)

Definition ord (c : ascii) : Z := Z.of_N (N_of_ascii c).

Definition codepoints (s : string) : list Z := map ord (list_ascii_of_string s).

(** [s.startswith(p)] *)
Fixpoint startswith (s p : string) : bool :=
  match p, s with
  | EmptyString, _ => true
  | String _ _, EmptyString => false
  | String a p', String b s' => Ascii.eqb a b && startswith s' p'
  end.

(** [s[n:]] for [n >= 0] *)
Fixpoint slice_from (n : nat) (s : string) : string :=
  match n, s with
  | O, _ => s
  | S _, EmptyString => EmptyString
  | S n', String _ s' => slice_from n' s'
  end.

Fixpoint cps_eqb (a b : list Z) : bool :=
  match a, b with
  | [], [] => true
  | x :: a', y :: b' => (x =? y) && cps_eqb a' b'
  | _, _ => false
  end.

(** *** [base64.b64decode(s)] with the default [validate=False]

    [s] is a [str]: it is first encoded to ASCII, which raises on any
    character above 127.  The bytes then go through [binascii.a2b_base64] in
    its non-strict mode, whose loop (CPython, [Modules/binascii.c]) is
    followed here with its variables [quad_pos], [leftchar] and [pads]:
    characters outside the alphabet are skipped, a pad sequence that completes
    a quad ends the parse, and the input must not stop in the middle of a
    quad.  [None] stands for the exception ([ValueError], [binascii.Error]). *)

Definition table_a2b_base64 (c : Z) : option Z :=
  if (65 <=? c) && (c <=? 90) then Some (c - 65)
  else if (97 <=? c) && (c <=? 122) then Some (c - 71)
  else if (48 <=? c) && (c <=? 57) then Some (c + 4)
  else if c =? 43 then Some 62
  else if c =? 47 then Some 63
  else None.

Definition BASE64_PAD : Z := 61.

Definition u8 (x : Z) : Z := Z.land x 255.

Fixpoint a2b_base64 (quad_pos leftchar pads : Z) (ascii_data : list Z)
  : option (list Z) :=
  match ascii_data with
  | [] => if quad_pos =? 0 then Some [] else None
  | this_ch :: rest =>
      if this_ch =? BASE64_PAD then
        if 2 <=? quad_pos then
          if 4 <=? quad_pos + (pads + 1) then Some []
          else a2b_base64 quad_pos leftchar (pads + 1) rest
        else a2b_base64 quad_pos leftchar pads rest
      else
        match table_a2b_base64 this_ch with
        | None => a2b_base64 quad_pos leftchar pads rest
        | Some d =>
            if quad_pos =? 0 then a2b_base64 1 d 0 rest
            else if quad_pos =? 1 then
              option_map (cons (u8 (Z.lor (Z.shiftl leftchar 2) (Z.shiftr d 4))))
                         (a2b_base64 2 (Z.land d 15) 0 rest)
            else if quad_pos =? 2 then
              option_map (cons (u8 (Z.lor (Z.shiftl leftchar 4) (Z.shiftr d 2))))
                         (a2b_base64 3 (Z.land d 3) 0 rest)
            else
              option_map (cons (u8 (Z.lor (Z.shiftl leftchar 6) d)))
                         (a2b_base64 0 0 0 rest)
        end
  end.

Definition encode_ascii (s : string) : option (list Z) :=
  let cs := codepoints s in
  if forallb (fun c => c <? 128) cs then Some cs else None.

Definition b64decode (s : string) : option (list Z) :=
  match encode_ascii s with
  | Some bs => a2b_base64 0 0 0 bs
  | None => None
  end.

(** The characters that the decoder looks at: the alphabet and the pad. *)
Definition is_base64_char (c : Z) : bool :=
  (c =? BASE64_PAD)
  || match table_a2b_base64 c with Some _ => true | None => false end.

(** The encoder, used to state what the canonical encoding of a text is. *)

Definition table_b2a_base64 (d : Z) : Z :=
  if d <? 26 then d + 65
  else if d <? 52 then d + 71
  else if d <? 62 then d - 4
  else if d =? 62 then 43
  else 47.

Fixpoint b2a_base64 (bs : list Z) : list Z :=
  match bs with
  | [] => []
  | [a] =>
      [table_b2a_base64 (Z.shiftr a 2);
       table_b2a_base64 (Z.shiftl (Z.land a 3) 4);
       BASE64_PAD; BASE64_PAD]
  | [a; b] =>
      [table_b2a_base64 (Z.shiftr a 2);
       table_b2a_base64 (Z.lor (Z.shiftl (Z.land a 3) 4) (Z.shiftr b 4));
       table_b2a_base64 (Z.shiftl (Z.land b 15) 2);
       BASE64_PAD]
  | a :: b :: c :: rest =>
      table_b2a_base64 (Z.shiftr a 2)
      :: table_b2a_base64 (Z.lor (Z.shiftl (Z.land a 3) 4) (Z.shiftr b 4))
      :: table_b2a_base64 (Z.lor (Z.shiftl (Z.land b 15) 2) (Z.shiftr c 6))
      :: table_b2a_base64 (Z.land c 63)
      :: b2a_base64 rest
  end.

Definition chr (c : Z) : ascii := ascii_of_N (Z.to_N c).

Definition b64encode (bs : list Z) : string :=
  string_of_list_ascii (map chr (b2a_base64 bs)).

(** *** [bytes.decode('utf-8')], strict error handling

    Only well-formed sequences decode: no overlong forms, no surrogates,
    nothing above U+10FFFF.  [None] stands for [UnicodeDecodeError]. *)

Definition is_cont (b : Z) : bool := (128 <=? b) && (b <=? 191).
Definition in_range (lo hi b : Z) : bool := (lo <=? b) && (b <=? hi).

Fixpoint utf8_decode (bs : list Z) : option (list Z) :=
  match bs with
  | [] => Some []
  | b0 :: r0 =>
      if in_range 0 127 b0 then option_map (cons b0) (utf8_decode r0)
      else if in_range 194 223 b0 then
        match r0 with
        | b1 :: r1 =>
            if is_cont b1 then
              option_map (cons (Z.lor (Z.shiftl (Z.land b0 31) 6) (Z.land b1 63)))
                         (utf8_decode r1)
            else None
        | _ => None
        end
      else if in_range 224 239 b0 then
        match r0 with
        | b1 :: b2 :: r2 =>
            if in_range (if b0 =? 224 then 160 else 128)
                        (if b0 =? 237 then 159 else 191) b1
               && is_cont b2 then
              option_map (cons (Z.lor (Z.shiftl (Z.land b0 15) 12)
                                 (Z.lor (Z.shiftl (Z.land b1 63) 6) (Z.land b2 63))))
                         (utf8_decode r2)
            else None
        | _ => None
        end
      else if in_range 240 244 b0 then
        match r0 with
        | b1 :: b2 :: b3 :: r3 =>
            if in_range (if b0 =? 240 then 144 else 128)
                        (if b0 =? 244 then 143 else 191) b1
               && is_cont b2 && is_cont b3 then
              option_map (cons (Z.lor (Z.shiftl (Z.land b0 7) 18)
                                 (Z.lor (Z.shiftl (Z.land b1 63) 12)
                                    (Z.lor (Z.shiftl (Z.land b2 63) 6) (Z.land b3 63)))))
                         (utf8_decode r3)
            else None
        | _ => None
        end
      else None
  end.

(** *** [credentials.split(':', 1)] and the two-name unpacking *)

Definition COLON : Z := 58.

(** The list that [s.split(sep, 1)] returns: one element when [sep] does not
    occur, otherwise the text before the first [sep] and the text after it. *)
Fixpoint split1 (sep : Z) (s : list Z) : list (list Z) :=
  match s with
  | [] => [[]]
  | c :: r =>
      if c =? sep then [[]; r]
      else match split1 sep r with
           | h :: t => (c :: h) :: t
           | [] => [[c]]
           end
  end.

(** [a, b = xs] raises [ValueError] unless [xs] has exactly two elements. *)
Definition unpack2 {A} (xs : list A) : option (A * A) :=
  match xs with
  | [a; b] => Some (a, b)
  | _ => None
  end.

(** *** Requests *)

Definition USERNAME : string := "testuser".
Definition PASSWORD : string := "testpass".

(** What the [try] block of [authenticate_request] computes; [None] when
    any of its steps raises. *)
Definition check_credentials (auth_header : string) : option bool :=
  match b64decode (slice_from 6 auth_header) with
  | None => None
  | Some raw =>
      match utf8_decode raw with
      | None => None
      | Some credentials =>
          match unpack2 (split1 COLON credentials) with
          | None => None
          | Some (username, password) =>
              Some (cps_eqb username (codepoints USERNAME)
                    && cps_eqb password (codepoints PASSWORD))
          end
      end
  end.

(** [authenticate_request], as a function of the [Authorization] header
    ([request.headers.get('Authorization', '')] has already been applied). *)
Definition authenticate_header (auth_header : string) : bool :=
  if negb (startswith auth_header "Basic ") then false
  else match check_credentials auth_header with
       | Some b => b
       | None => false
       end.

(** What the specification says of an accepted header, in its own words:
    the text after the scheme prefix decodes, through base64 and UTF-8, to a
    text whose part before the first [:] is the user name and whose part after
    it is the password. *)
Definition carries_credentials (payload : string) : Prop :=
  exists raw username password,
    b64decode payload = Some raw /\
    utf8_decode raw = Some (username ++ COLON :: password) /\
    ~ In COLON username /\
    username = codepoints USERNAME /\
    password = codepoints PASSWORD.

Definition decodes_to_credentials (h : string) : Prop :=
  exists payload, h = ("Basic " ++ payload)%string /\ carries_credentials payload.

(** A payload written in the base64 alphabet: characters of the alphabet,
    then at most two [=] (the expression [[A-Za-z0-9+/]*={0,2}] that
    [b64decode] itself checks when asked to validate). *)
Fixpoint after_alphabet (cs : list Z) : list Z :=
  match cs with
  | [] => []
  | c :: r =>
      match table_a2b_base64 c with
      | Some _ => after_alphabet r
      | None => cs
      end
  end.

Definition in_base64_alphabet (payload : string) : bool :=
  match after_alphabet (codepoints payload) with
  | [] => true
  | [p1] => p1 =? BASE64_PAD
  | [p1; p2] => (p1 =? BASE64_PAD) && (p2 =? BASE64_PAD)
  | _ => false
  end.

(** The reading under which only valid base64 is accepted. *)
Definition valid_base64_credentials (h : string) : Prop :=
  exists payload,
    h = ("Basic " ++ payload)%string /\
    in_base64_alphabet payload = true /\
    carries_credentials payload.

(** *** Python values

    JSON request bodies, BSON documents and response bodies share one type.
    [VObjectId] is the database's native identifier ([bson.ObjectId], twelve
    bytes); it never occurs in a parsed JSON body and has no JSON encoding.
    A dict is an association list in insertion order.  Numbers are integers
    (floating point is left out). *)

Inductive value : Type :=
| VNone
| VBool (b : bool)
| VInt (n : Z)
| VStr (s : string)
| VList (xs : list value)
| VDict (kvs : list (string * value))
| VObjectId (oid : list Z).

Definition document : Type := list (string * value).

(** Truth value of an object in a condition ([if x:]). *)
Definition truthy (v : value) : bool :=
  match v with
  | VNone => false
  | VBool b => b
  | VInt n => negb (n =? 0)
  | VStr s => negb (String.eqb s "")
  | VList xs => match xs with [] => false | _ => true end
  | VDict kvs => match kvs with [] => false | _ => true end
  | VObjectId _ => true
  end.

Definition type_name (v : value) : string :=
  match v with
  | VNone => "NoneType"
  | VBool _ => "bool"
  | VInt _ => "int"
  | VStr _ => "str"
  | VList _ => "list"
  | VDict _ => "dict"
  | VObjectId _ => "ObjectId"
  end.

(** [k in d], [d.get(k)], [d[k] = v] and [del d[k]] on a dict. *)
Fixpoint dict_get (k : string) (d : document) : option value :=
  match d with
  | [] => None
  | (k', v) :: d' => if String.eqb k k' then Some v else dict_get k d'
  end.

Definition dict_contains (k : string) (d : document) : bool :=
  match dict_get k d with Some _ => true | None => false end.

Fixpoint dict_set (k : string) (v : value) (d : document) : document :=
  match d with
  | [] => [(k, v)]
  | (k', v') :: d' =>
      if String.eqb k k' then (k, v) :: d' else (k', v') :: dict_set k v d'
  end.

Fixpoint dict_del (k : string) (d : document) : document :=
  match d with
  | [] => []
  | (k', v') :: d' =>
      if String.eqb k k' then dict_del k d' else (k', v') :: dict_del k d'
  end.

(** *** Exceptions

    The exceptions that [except Exception] catches.  Those raised by the
    handlers' own subscripts have constructors of their own. *)

Inductive exn : Type :=
| KeyError (key : string)
| TypeError (msg : string)
| AttributeError (msg : string)
| Raised (cls msg : string).
(** [Raised cls msg]: any other exception (an HTTP error from the request
    parser, a [PyMongoError], whatever a library call raises), by the name of
    its class and its [str()]. *)

(** [str(e)].  The keys looked up by the handlers are plain identifiers, for
    which [repr(key)] is the key between single quotes. *)
Definition str_exn (e : exn) : string :=
  match e with
  | KeyError key => ("'" ++ key ++ "'")%string
  | TypeError msg => msg
  | AttributeError msg => msg
  | Raised _ msg => msg
  end.

Inductive result (A : Type) : Type :=
| Ok (a : A)
| Raise (e : exn).
Arguments Ok {A} a.
Arguments Raise {A} e.

(** [data[key]] with a [str] key. *)
Definition getitem (data : value) (key : string) : result value :=
  match data with
  | VDict kvs =>
      match dict_get key kvs with
      | Some v => Ok v
      | None => Raise (KeyError key)
      end
  | VList _ => Raise (TypeError "list indices must be integers or slices, not str")
  | VStr _ => Raise (TypeError "string indices must be integers, not 'str'")
  | _ => Raise (TypeError ("'" ++ type_name data ++ "' object is not subscriptable")%string)
  end.

(** [data.get(key, default)] *)
Definition dict_get_default (data : value) (key : string) (default : value)
  : result value :=
  match data with
  | VDict kvs =>
      match dict_get key kvs with
      | Some v => Ok v
      | None => Ok default
      end
  | _ => Raise (AttributeError
                  ("'" ++ type_name data ++ "' object has no attribute 'get'")%string)
  end.

(** *** [flask.jsonify]

    The JSON encoder raises [TypeError] on an object it has no encoding for;
    among the values here that is [ObjectId], at any depth.  The body of a
    response is kept as the value that was encoded: it stands for the JSON
    text, in which the encoder writes the keys of an object in sorted order,
    so the order of the pairs of a [VDict] in a body says nothing about the
    text. *)

Fixpoint json_safe (v : value) : bool :=
  match v with
  | VObjectId _ => false
  | VList xs => forallb json_safe xs
  | VDict kvs => forallb (fun kv => json_safe (snd kv)) kvs
  | _ => true
  end.

Definition jsonify (v : value) : result value :=
  if json_safe v then Ok v
  else Raise (TypeError "Object of type ObjectId is not JSON serializable").

(** *** Requests and responses *)

(** A request, as far as the handlers look at it: the [Authorization] header
    if there is one, and what [request.get_json()] does when it is called
    (returns the parsed body or raises). *)
Record request : Type := {
  authorization : option string;
  json : result value
}.

Record response : Type := {
  body : value;
  status : Z
}.

(** [request.headers.get('Authorization', '')] *)
Definition headers_get_authorization (rq : request) : string :=
  match authorization rq with
  | Some h => h
  | None => ""
  end.

Definition authenticate_request (rq : request) : bool :=
  authenticate_header (headers_get_authorization rq).

(** *** The database driver

    [pymongo] is outside the repository: the handlers are written against
    this interface.  Every call may raise and may change the state of the
    store.  [update_one] and [update_many] are the calls without [upsert]. *)

Record update_result : Type := {
  matched_count : Z;
  modified_count : Z;
  upserted_id : value
}.

Class Driver : Type := {
  db : Type;
  collection : Type;
  cursor : Type;
  client_collection : value -> value -> db -> result collection * db;
  coll_insert_one : collection -> value -> db -> result value * db;
  coll_insert_many : collection -> value -> db -> result (list value) * db;
  coll_find : collection -> value -> db -> result cursor * db;
  cursor_skip : cursor -> value -> db -> result cursor * db;
  cursor_limit : cursor -> value -> db -> result cursor * db;
  coll_aggregate : collection -> value -> db -> result cursor * db;
  cursor_iter : cursor -> db -> result (list document) * db;
  coll_update_one : collection -> value -> value -> db -> result update_result * db;
  coll_update_many : collection -> value -> value -> db -> result update_result * db;
  coll_delete_one : collection -> value -> db -> result Z * db;
  coll_delete_many : collection -> value -> db -> result Z * db;
  admin_ping : db -> result unit * db
}.

(** Two facts from the driver's documentation that the handlers pass on
    without checking: [insert_many] returns one identifier for each document
    it was given, and an update that matched nothing modified nothing and
    (no upsert being asked for) inserted nothing. *)
Definition one_id_per_document (D : Driver) : Prop :=
  forall c docs d ids d',
    coll_insert_many c (VList docs) d = (Ok ids, d') ->
    List.length ids = List.length docs.

Definition no_match_no_change (D : Driver) : Prop :=
  forall c f u d r d',
    coll_update_one c f u d = (Ok r, d') ->
    matched_count r = 0 ->
    modified_count r = 0 /\ upserted_id r = VNone.

(** What a handler does that can be observed from outside, in order. *)
Inductive event : Type :=
| EvGetJson
| EvCollection (database collection_name : value)
| EvInsertOne (doc : value)
| EvInsertMany (docs : value)
| EvFind (filter_doc : value)
| EvSkip (skip : value)
| EvLimit (limit : value)
| EvAggregate (pipeline : value)
| EvIterate
| EvUpdateOne (filter_criteria update_doc : value)
| EvUpdateMany (filter_criteria update_doc : value)
| EvDeleteOne (filter_criteria : value)
| EvDeleteMany (filter_criteria : value)
| EvPing.

Definition is_db_event (e : event) : bool :=
  match e with
  | EvGetJson => false
  | _ => true
  end.

(** *** The handlers *)

Section Handlers.

Context {D : Driver}.

(** [str(x)] on a value (for an [ObjectId], its 24 hexadecimal digits). *)
Variable py_str : value -> string.

(** The store behind the shared [client], and what has been observed so far.
    [logger.error] calls are not recorded. *)
Record world : Type := {
  w_db : db;
  w_log : list event
}.

(** A computation: may raise, may change the world. *)
Definition M (A : Type) : Type := world -> result A * world.

Definition ret {A} (a : A) : M A := fun w => (Ok a, w).

Definition bind {A B} (m : M A) (k : A -> M B) : M B :=
  fun w =>
    match m w with
    | (Ok a, w') => k a w'
    | (Raise e, w') => (Raise e, w')
    end.

Notation "x <- m ;; k" := (bind m (fun x => k))
  (at level 61, m at next level, right associativity).

(** A pure step that may raise. *)
Definition lift {A} (r : result A) : M A := fun w => (r, w).

(** A call that is observed. *)
Definition call {A} (e : event) (op : db -> result A * db) : M A :=
  fun w =>
    let (r, d) := op (w_db w) in
    (r, {| w_db := d; w_log := w_log w ++ [e] |}).

(** [try: m  except Exception as e: h e] *)
Definition try_except {A} (m : M A) (h : exn -> M A) : M A :=
  fun w =>
    match m w with
    | (Ok a, w') => (Ok a, w')
    | (Raise e, w') => h e w'
    end.

(** Two ways to speak of a computation without running it: what holds of
    its value whenever it returns, and which events it adds to the log (all of
    [plan] when it returns, a prefix of [plan] when it raises). *)
Definition ensures {A} (m : M A) (P : A -> Prop) : Prop :=
  forall w a w', m w = (Ok a, w') -> P a.

Definition traces {A} (m : M A) (plan : list event) : Prop :=
  forall w,
    exists evs,
      w_log (snd (m w)) = w_log w ++ evs /\
      match fst (m w) with
      | Ok _ => evs = plan
      | Raise _ => exists rest, plan = evs ++ rest
      end.

(** [request.get_json()] *)
Definition get_json (rq : request) : M value :=
  call EvGetJson (fun d => (json rq, d)).

(** [return jsonify(v), code] *)
Definition respond (v : value) (code : Z) : M response :=
  b <- lift (jsonify v) ;;
  ret {| body := b; status := code |}.

Definition unauthorized : M response :=
  respond (VDict [("error", VStr "Unauthorized")]) 401.

(** The [except Exception as e] clause shared by the action handlers. *)
Definition report_error (e : exn) : M response :=
  respond (VDict [("error", VStr (str_exn e))]) 500.

Definition get_collection (database_name collection_name : value)
  : M collection :=
  call (EvCollection database_name collection_name)
       (client_collection database_name collection_name).

(** The [try] block of [insert_one]. *)
Definition insert_one_try (rq : request) : M response :=
  data <- get_json rq ;;
  database <- lift (getitem data "database") ;;
  collection_name <- lift (getitem data "collection") ;;
  document <- lift (getitem data "document") ;;
  collection <- get_collection database collection_name ;;
  inserted_id <- call (EvInsertOne document)
                      (coll_insert_one collection document) ;;
  respond (VDict [("insertedId", VStr (py_str inserted_id));
                  ("insertedCount", VInt 1)]) 200.

Definition insert_one (rq : request) : M response :=
  if negb (authenticate_request rq) then unauthorized
  else try_except (insert_one_try rq) report_error.

(** The [try] block of [insert_many]. *)
Definition insert_many_try (rq : request) : M response :=
  data <- get_json rq ;;
  database <- lift (getitem data "database") ;;
  collection_name <- lift (getitem data "collection") ;;
  documents <- lift (getitem data "documents") ;;
  collection <- get_collection database collection_name ;;
  inserted_ids <- call (EvInsertMany documents)
                       (coll_insert_many collection documents) ;;
  respond (VDict [("insertedIds",
                   VList (map (fun id => VStr (py_str id)) inserted_ids));
                  ("insertedCount",
                   VInt (Z.of_nat (List.length inserted_ids)))]) 200.

Definition insert_many (rq : request) : M response :=
  if negb (authenticate_request rq) then unauthorized
  else try_except (insert_many_try rq) report_error.

(** The body of the loops over a cursor:
    [if '_id' in doc: doc['_id'] = str(doc['_id'])]. *)
Definition stringify_id (doc : document) : document :=
  match dict_get "_id" doc with
  | Some id => dict_set "_id" (VStr (py_str id)) doc
  | None => doc
  end.

(** [documents = []; for doc in cursor: ...; documents.append(doc)], over
    the documents that the cursor yields. *)
Definition collect (yielded : list document) : list document :=
  fold_left (fun documents doc => documents ++ [stringify_id doc]) yielded [].

Definition documents_body (documents : list document) : value :=
  VDict [("documents", VList (map VDict documents))].

(** The [try] block of [find]. *)
Definition find_try (rq : request) : M response :=
  data <- get_json rq ;;
  database <- lift (getitem data "database") ;;
  collection_name <- lift (getitem data "collection") ;;
  filter_doc <- lift (dict_get_default data "filter" (VDict [])) ;;
  limit <- lift (dict_get_default data "limit" VNone) ;;
  skip <- lift (dict_get_default data "skip" (VInt 0)) ;;
  collection <- get_collection database collection_name ;;
  cursor0 <- call (EvFind filter_doc) (coll_find collection filter_doc) ;;
  cursor1 <- call (EvSkip skip) (cursor_skip cursor0 skip) ;;
  cursor2 <- (if truthy limit
              then call (EvLimit limit) (cursor_limit cursor1 limit)
              else ret cursor1) ;;
  yielded <- call EvIterate (cursor_iter cursor2) ;;
  respond (documents_body (collect yielded)) 200.

Definition find (rq : request) : M response :=
  if negb (authenticate_request rq) then unauthorized
  else try_except (find_try rq) report_error.

(** The [try] block of [aggregate]. *)
Definition aggregate_try (rq : request) : M response :=
  data <- get_json rq ;;
  database <- lift (getitem data "database") ;;
  collection_name <- lift (getitem data "collection") ;;
  pipeline <- lift (getitem data "pipeline") ;;
  collection <- get_collection database collection_name ;;
  cursor0 <- call (EvAggregate pipeline) (coll_aggregate collection pipeline) ;;
  yielded <- call EvIterate (cursor_iter cursor0) ;;
  respond (documents_body (collect yielded)) 200.

Definition aggregate (rq : request) : M response :=
  if negb (authenticate_request rq) then unauthorized
  else try_except (aggregate_try rq) report_error.

(** The [try] block of [update_one]. *)
Definition update_one_try (rq : request) : M response :=
  data <- get_json rq ;;
  database <- lift (getitem data "database") ;;
  collection_name <- lift (getitem data "collection") ;;
  filter_criteria <- lift (dict_get_default data "filter" (VDict [])) ;;
  update_doc <- lift (getitem data "update") ;;
  collection <- get_collection database collection_name ;;
  r <- call (EvUpdateOne filter_criteria update_doc)
            (coll_update_one collection filter_criteria update_doc) ;;
  respond (VDict [("matchedCount", VInt (matched_count r));
                  ("modifiedCount", VInt (modified_count r));
                  ("upsertedId",
                   if truthy (upserted_id r)
                   then VStr (py_str (upserted_id r))
                   else VNone)]) 200.

Definition update_one (rq : request) : M response :=
  if negb (authenticate_request rq) then unauthorized
  else try_except (update_one_try rq) report_error.

(** The [try] block of [update_many]. *)
Definition update_many_try (rq : request) : M response :=
  data <- get_json rq ;;
  database <- lift (getitem data "database") ;;
  collection_name <- lift (getitem data "collection") ;;
  filter_criteria <- lift (dict_get_default data "filter" (VDict [])) ;;
  update_doc <- lift (getitem data "update") ;;
  collection <- get_collection database collection_name ;;
  r <- call (EvUpdateMany filter_criteria update_doc)
            (coll_update_many collection filter_criteria update_doc) ;;
  respond (VDict [("matchedCount", VInt (matched_count r));
                  ("modifiedCount", VInt (modified_count r))]) 200.

Definition update_many (rq : request) : M response :=
  if negb (authenticate_request rq) then unauthorized
  else try_except (update_many_try rq) report_error.

(** The [try] block of [delete_one]. *)
Definition delete_one_try (rq : request) : M response :=
  data <- get_json rq ;;
  database <- lift (getitem data "database") ;;
  collection_name <- lift (getitem data "collection") ;;
  filter_criteria <- lift (dict_get_default data "filter" (VDict [])) ;;
  collection <- get_collection database collection_name ;;
  deleted_count <- call (EvDeleteOne filter_criteria)
                        (coll_delete_one collection filter_criteria) ;;
  respond (VDict [("deletedCount", VInt deleted_count)]) 200.

Definition delete_one (rq : request) : M response :=
  if negb (authenticate_request rq) then unauthorized
  else try_except (delete_one_try rq) report_error.

(** The [try] block of [delete_many]. *)
Definition delete_many_try (rq : request) : M response :=
  data <- get_json rq ;;
  database <- lift (getitem data "database") ;;
  collection_name <- lift (getitem data "collection") ;;
  filter_criteria <- lift (dict_get_default data "filter" (VDict [])) ;;
  collection <- get_collection database collection_name ;;
  deleted_count <- call (EvDeleteMany filter_criteria)
                        (coll_delete_many collection filter_criteria) ;;
  respond (VDict [("deletedCount", VInt deleted_count)]) 200.

Definition delete_many (rq : request) : M response :=
  if negb (authenticate_request rq) then unauthorized
  else try_except (delete_many_try rq) report_error.

Definition health (rq : request) : M response :=
  try_except
    (_ <- call EvPing admin_ping ;;
     respond (VDict [("status", VStr "healthy");
                     ("message", VStr "DocumentDB API server is running")]) 200)
    (fun e =>
       respond (VDict [("status", VStr "unhealthy");
                       ("error", VStr (str_exn e))]) 500).

(** The routes under [/data/v1/action/]. *)
Inductive action : Type :=
| InsertOne | InsertMany | Find | Aggregate
| UpdateOne | UpdateMany | DeleteOne | DeleteMany.

Definition action_try (a : action) : request -> M response :=
  match a with
  | InsertOne => insert_one_try
  | InsertMany => insert_many_try
  | Find => find_try
  | Aggregate => aggregate_try
  | UpdateOne => update_one_try
  | UpdateMany => update_many_try
  | DeleteOne => delete_one_try
  | DeleteMany => delete_many_try
  end.

Definition action_handler (a : action) : request -> M response :=
  match a with
  | InsertOne => insert_one
  | InsertMany => insert_many
  | Find => find
  | Aggregate => aggregate
  | UpdateOne => update_one
  | UpdateMany => update_many
  | DeleteOne => delete_one
  | DeleteMany => delete_many
  end.

End Handlers.

(** The fields that each handler reads with [data[...]], in the order in
    which it reads them. *)
Definition required_fields (a : action) : list string :=
  match a with
  | InsertOne => ["database"; "collection"; "document"]
  | InsertMany => ["database"; "collection"; "documents"]
  | Find => ["database"; "collection"]
  | Aggregate => ["database"; "collection"; "pipeline"]
  | UpdateOne => ["database"; "collection"; "update"]
  | UpdateMany => ["database"; "collection"; "update"]
  | DeleteOne => ["database"; "collection"]
  | DeleteMany => ["database"; "collection"]
  end.

Definition first_missing (fields : list string) (kvs : document) : option string :=
  List.find (fun k => negb (dict_contains k kvs)) fields.

(** [d.get(k, default)] as a plain value. *)
Definition get_or (kvs : document) (k : string) (default : value) : value :=
  match dict_get k kvs with
  | Some v => v
  | None => default
  end.

(** What a [find] on the body [kvs] asks of the driver, in order, when no
    call raises. *)
Definition find_calls (kvs : document) : list event :=
  [EvCollection (get_or kvs "database" VNone) (get_or kvs "collection" VNone);
   EvFind (get_or kvs "filter" (VDict []));
   EvSkip (get_or kvs "skip" (VInt 0))]
  ++ (if truthy (get_or kvs "limit" VNone)
      then [EvLimit (get_or kvs "limit" VNone)]
      else [])
  ++ [EvIterate].

(** *** Two drivers to run the handlers on

    Neither is part of the repository.  [MemDriver] keeps the collections in
    memory and understands equality filters, [$set] updates and [$match]
    stages; [FailingDriver e] raises [e] on every call (a store that cannot be
    reached). *)

Fixpoint value_eqb (a b : value) : bool :=
  match a, b with
  | VNone, VNone => true
  | VBool x, VBool y => Bool.eqb x y
  | VInt x, VInt y => x =? y
  | VStr x, VStr y => String.eqb x y
  | VList xs, VList ys =>
      (fix go (xs ys : list value) : bool :=
         match xs, ys with
         | [], [] => true
         | x :: xs', y :: ys' => value_eqb x y && go xs' ys'
         | _, _ => false
         end) xs ys
  | VDict xs, VDict ys =>
      (fix go (xs ys : list (string * value)) : bool :=
         match xs, ys with
         | [], [] => true
         | (k, x) :: xs', (l, y) :: ys' =>
             String.eqb k l && value_eqb x y && go xs' ys'
         | _, _ => false
         end) xs ys
  | VObjectId x, VObjectId y => cps_eqb x y
  | _, _ => false
  end.

(** A document matches an equality filter when it has every field of the
    filter with an equal value. *)
Definition matches (filter_doc doc : document) : bool :=
  forallb (fun kv =>
             match dict_get (fst kv) doc with
             | Some v => value_eqb (snd kv) v
             | None => false
             end) filter_doc.

Definition coll_name : Type := (string * string)%type.

Definition coll_name_eqb (a b : coll_name) : bool :=
  String.eqb (fst a) (fst b) && String.eqb (snd a) (snd b).

Record mem_db : Type := {
  next_oid : Z;
  colls : list (coll_name * list document)
}.

Fixpoint colls_get (c : coll_name) (cs : list (coll_name * list document))
  : list document :=
  match cs with
  | [] => []
  | (c', docs) :: cs' => if coll_name_eqb c c' then docs else colls_get c cs'
  end.

Fixpoint colls_put (c : coll_name) (docs : list document)
         (cs : list (coll_name * list document))
  : list (coll_name * list document) :=
  match cs with
  | [] => [(c, docs)]
  | (c', docs') :: cs' =>
      if coll_name_eqb c c' then (c, docs) :: cs'
      else (c', docs') :: colls_put c docs cs'
  end.

Definition mem_empty : mem_db := {| next_oid := 1; colls := [] |}.

(** The twelve bytes of the [n]-th identifier handed out. *)
Definition oid_bytes (n : Z) : list Z :=
  [0; 0; 0; 0; 0; 0; 0; 0;
   u8 (Z.shiftr n 24); u8 (Z.shiftr n 16); u8 (Z.shiftr n 8); u8 n].

Record mem_cursor : Type := {
  cur_docs : list document;
  cur_skip : Z;
  cur_limit : Z
}.

Definition mem_client_collection (database_name collection_name : value)
           (d : mem_db) : result coll_name * mem_db :=
  match database_name, collection_name with
  | VStr dn, VStr cn =>
      if String.eqb dn "" then
        (Raise (Raised "InvalidName" "database name cannot be the empty string"), d)
      else if String.eqb cn "" then
        (Raise (Raised "InvalidName" "collection names cannot be empty"), d)
      else (Ok (dn, cn), d)
  | _, _ => (Raise (TypeError "name must be an instance of str"), d)
  end.

(** Give [doc] an [_id] if it has none. *)
Definition with_id (n : Z) (doc : document) : document * value * Z :=
  match dict_get "_id" doc with
  | Some id => (doc, id, n)
  | None => (("_id", VObjectId (oid_bytes n)) :: doc, VObjectId (oid_bytes n), n + 1)
  end.

Definition mem_insert_one (c : coll_name) (doc : value) (d : mem_db)
  : result value * mem_db :=
  match doc with
  | VDict kvs =>
      let '(kvs', id, n) := with_id (next_oid d) kvs in
      (Ok id, {| next_oid := n;
                 colls := colls_put c (colls_get c (colls d) ++ [kvs']) (colls d) |})
  | _ => (Raise (TypeError "document must be an instance of dict"), d)
  end.

(** All the elements as documents, or [None] if one is not a dict. *)
Fixpoint as_documents (xs : list value) : option (list document) :=
  match xs with
  | [] => Some []
  | VDict kvs :: xs' => option_map (cons kvs) (as_documents xs')
  | _ :: _ => None
  end.

Fixpoint with_ids (n : Z) (docs : list document)
  : list document * list value * Z :=
  match docs with
  | [] => ([], [], n)
  | doc :: docs' =>
      let '(doc1, id, n1) := with_id n doc in
      let '(docs1, ids, n2) := with_ids n1 docs' in
      (doc1 :: docs1, id :: ids, n2)
  end.

Definition mem_insert_many (c : coll_name) (docs : value) (d : mem_db)
  : result (list value) * mem_db :=
  match docs with
  | VList xs =>
      if truthy docs then
        match as_documents xs with
        | Some ds =>
            let '(ds', ids, n) := with_ids (next_oid d) ds in
            (Ok ids, {| next_oid := n;
                        colls := colls_put c (colls_get c (colls d) ++ ds') (colls d) |})
        | None => (Raise (TypeError "document must be an instance of dict"), d)
        end
      else (Raise (TypeError "documents must be a non-empty list"), d)
  | _ => (Raise (TypeError "documents must be a non-empty list"), d)
  end.

(** An argument that passes [isinstance(x, int)]: an [int], or a [bool]
    (which is an [int] in Python, [True] being 1). *)
Definition as_int (v : value) : option Z :=
  match v with
  | VInt n => Some n
  | VBool b => Some (if b then 1 else 0)
  | _ => None
  end.

Definition mem_find (c : coll_name) (filter_doc : value) (d : mem_db)
  : result mem_cursor * mem_db :=
  match filter_doc with
  | VDict f =>
      (Ok {| cur_docs := filter (matches f) (colls_get c (colls d));
             cur_skip := 0; cur_limit := 0 |}, d)
  | _ => (Raise (TypeError "filter must be an instance of dict"), d)
  end.

Definition mem_skip (cur : mem_cursor) (skip : value) (d : mem_db)
  : result mem_cursor * mem_db :=
  match as_int skip with
  | Some n =>
      if n <? 0 then (Raise (Raised "ValueError" "skip must be >= 0"), d)
      else (Ok {| cur_docs := cur_docs cur; cur_skip := n;
                  cur_limit := cur_limit cur |}, d)
  | None => (Raise (TypeError "skip must be an integer"), d)
  end.

Definition mem_limit (cur : mem_cursor) (limit : value) (d : mem_db)
  : result mem_cursor * mem_db :=
  match as_int limit with
  | Some n =>
      (Ok {| cur_docs := cur_docs cur; cur_skip := cur_skip cur;
             cur_limit := n |}, d)
  | None => (Raise (TypeError "limit must be an integer"), d)
  end.

(** The documents a cursor yields: the skip first, then the limit ([0] is no
    limit, a negative limit is its absolute value). *)
Definition mem_iter (cur : mem_cursor) (d : mem_db)
  : result (list document) * mem_db :=
  let skipped := skipn (Z.to_nat (cur_skip cur)) (cur_docs cur) in
  (Ok (if cur_limit cur =? 0 then skipped
       else firstn (Z.to_nat (Z.abs (cur_limit cur))) skipped), d).

Fixpoint run_pipeline (stages : list value) (docs : list document)
  : result (list document) :=
  match stages with
  | [] => Ok docs
  | VDict [("$match", VDict f)] :: stages' =>
      run_pipeline stages' (filter (matches f) docs)
  | _ :: _ => Raise (Raised "OperationFailure" "Unrecognized pipeline stage name")
  end.

Definition mem_aggregate (c : coll_name) (pipeline : value) (d : mem_db)
  : result mem_cursor * mem_db :=
  match pipeline with
  | VList stages =>
      match run_pipeline stages (colls_get c (colls d)) with
      | Ok docs => (Ok {| cur_docs := docs; cur_skip := 0; cur_limit := 0 |}, d)
      | Raise e => (Raise e, d)
      end
  | _ => (Raise (TypeError "pipeline must be a list"), d)
  end.

Definition apply_set (fields doc : document) : document :=
  fold_left (fun acc kv => dict_set (fst kv) (snd kv) acc) fields doc.

(** Update the first [budget] matching documents; returns the new documents
    with the numbers of documents matched and modified. *)
Fixpoint update_docs (budget : nat) (f fields : document) (docs : list document)
  : list document * Z * Z :=
  match docs with
  | [] => ([], 0, 0)
  | doc :: docs' =>
      match budget with
      | O => (docs, 0, 0)
      | S budget' =>
          if matches f doc then
            let doc' := apply_set fields doc in
            let '(rest, m, k) := update_docs budget' f fields docs' in
            (doc' :: rest, m + 1,
             if value_eqb (VDict doc) (VDict doc') then k else k + 1)
          else
            let '(rest, m, k) := update_docs budget f fields docs' in
            (doc :: rest, m, k)
      end
  end.

(** The fields of an update document of the form [{"$set": {...}}]. *)
Definition set_fields (update_doc : value) : option document :=
  match update_doc with
  | VDict [(op, VDict fields)] =>
      if String.eqb op "$set" then Some fields else None
  | _ => None
  end.

Definition mem_update (budget : list document -> nat)
           (c : coll_name) (filter_criteria update_doc : value) (d : mem_db)
  : result update_result * mem_db :=
  match filter_criteria with
  | VDict f =>
      match set_fields update_doc with
      | Some fields =>
          let docs := colls_get c (colls d) in
          let '(docs', m, k) := update_docs (budget docs) f fields docs in
          (Ok {| matched_count := m; modified_count := k; upserted_id := VNone |},
           {| next_oid := next_oid d; colls := colls_put c docs' (colls d) |})
      | None =>
          (Raise (Raised "ValueError" "update only works with $ operators"), d)
      end
  | _ => (Raise (TypeError "filter must be an instance of dict"), d)
  end.

(** Delete the first [budget] matching documents. *)
Fixpoint delete_docs (budget : nat) (f : document) (docs : list document)
  : list document * Z :=
  match docs with
  | [] => ([], 0)
  | doc :: docs' =>
      match budget with
      | O => (docs, 0)
      | S budget' =>
          if matches f doc then
            let '(rest, n) := delete_docs budget' f docs' in (rest, n + 1)
          else
            let '(rest, n) := delete_docs budget f docs' in (doc :: rest, n)
      end
  end.

Definition mem_delete (budget : list document -> nat)
           (c : coll_name) (filter_criteria : value) (d : mem_db)
  : result Z * mem_db :=
  match filter_criteria with
  | VDict f =>
      let docs := colls_get c (colls d) in
      let '(docs', n) := delete_docs (budget docs) f docs in
      (Ok n, {| next_oid := next_oid d; colls := colls_put c docs' (colls d) |})
  | _ => (Raise (TypeError "filter must be an instance of dict"), d)
  end.

Definition one (docs : list document) : nat := 1%nat.
Definition every (docs : list document) : nat := List.length docs.

#[export] Instance MemDriver : Driver := {|
  db := mem_db;
  collection := coll_name;
  cursor := mem_cursor;
  client_collection := mem_client_collection;
  coll_insert_one := mem_insert_one;
  coll_insert_many := mem_insert_many;
  coll_find := mem_find;
  cursor_skip := mem_skip;
  cursor_limit := mem_limit;
  coll_aggregate := mem_aggregate;
  cursor_iter := mem_iter;
  coll_update_one := mem_update one;
  coll_update_many := mem_update every;
  coll_delete_one := mem_delete one;
  coll_delete_many := mem_delete every;
  admin_ping := fun d => (Ok tt, d)
|}.

Definition FailingDriver (e : exn) : Driver := {|
  db := unit;
  collection := unit;
  cursor := unit;
  client_collection := fun _ _ d => (Raise e, d);
  coll_insert_one := fun _ _ d => (Raise e, d);
  coll_insert_many := fun _ _ d => (Raise e, d);
  coll_find := fun _ _ d => (Raise e, d);
  cursor_skip := fun _ _ d => (Raise e, d);
  cursor_limit := fun _ _ d => (Raise e, d);
  coll_aggregate := fun _ _ d => (Raise e, d);
  cursor_iter := fun _ d => (Raise e, d);
  coll_update_one := fun _ _ _ d => (Raise e, d);
  coll_update_many := fun _ _ _ d => (Raise e, d);
  coll_delete_one := fun _ _ d => (Raise e, d);
  coll_delete_many := fun _ _ d => (Raise e, d);
  admin_ping := fun d => (Raise e, d)
|}.

(** [str()] on the identifiers that [MemDriver] hands out or stores: the
    hexadecimal digits of an [ObjectId], a [str] itself, the decimal digits of
    an [int], the names of [True], [False] and [None].  A list or a dict (not
    used as an identifier in the runs below) stands for itself by the name of
    its type. *)
Definition hex_digit (n : Z) : ascii :=
  chr (if n <? 10 then 48 + n else 87 + n).

Fixpoint hex_of_bytes (bs : list Z) : string :=
  match bs with
  | [] => EmptyString
  | b :: bs' =>
      String (hex_digit (Z.shiftr b 4))
             (String (hex_digit (Z.land b 15)) (hex_of_bytes bs'))
  end.

Definition mem_str (v : value) : string :=
  match v with
  | VObjectId oid => hex_of_bytes oid
  | VStr s => s
  | VInt n => NilZero.string_of_int (Z.to_int n)
  | VBool true => "True"
  | VBool false => "False"
  | VNone => "None"
  | _ => type_name v
  end.

(** A document whose [_id], if it has one, is a string. *)
Definition id_is_string (doc : document) : Prop :=
  forall id, dict_get "_id" doc = Some id -> exists s, id = VStr s.

(** The two fixed shapes of a refusal. *)
Definition unauthorized_response : response :=
  {| body := VDict [("error", VStr "Unauthorized")]; status := 401 |}.

Definition error_response (e : exn) : response :=
  {| body := VDict [("error", VStr (str_exn e))]; status := 500 |}.

(** *** Sample requests and stores, for running the handlers *)

Definition GOOD_HEADER : string := "Basic dGVzdHVzZXI6dGVzdHBhc3M=".
Definition WRONG_PASSWORD_HEADER : string := "Basic dGVzdHVzZXI6d3Jvbmc=".

Definition post (h : option string) (data : value) : request :=
  {| authorization := h; json := Ok data |}.

(** A request whose body is not JSON: [get_json] raises. *)
Definition post_garbage (h : option string) : request :=
  {| authorization := h;
     json := Raise (Raised "BadRequest"
       "400 Bad Request: The browser (or proxy) sent a request that this server could not understand.") |}.

Definition fresh : @world MemDriver := @Build_world MemDriver mem_empty [].

Definition unreachable (e : exn) : @world (FailingDriver e) :=
  @Build_world (FailingDriver e) tt [].

Definition in_coll (fields : list (string * value)) : value :=
  VDict (("database", VStr "test_db") :: ("collection", VStr "items") :: fields).

Definition item (n : Z) : value := VDict [("n", VInt n)].

(** The store after five items have been inserted through [insert_many]. *)
Definition five_items : @world MemDriver :=
  snd (@insert_many MemDriver mem_str
         (post (Some GOOD_HEADER)
               (in_coll [("documents", VList [item 1; item 2; item 3; item 4; item 5])]))
         fresh).

Definition authed (fields : list (string * value)) : request :=
  post (Some GOOD_HEADER) (in_coll fields).

Definition insert_five : request :=
  authed [("documents", VList [item 1; item 2; item 3; item 4; item 5])].

Definition five_ids_response : response :=
  {| body := VDict [("insertedIds",
                     VList [VStr "000000000000000000000001";
                            VStr "000000000000000000000002";
                            VStr "000000000000000000000003";
                            VStr "000000000000000000000004";
                            VStr "000000000000000000000005"]);
                    ("insertedCount", VInt 5)];
     status := 200 |}.

Definition set_x : value := VDict [("$set", VDict [("x", VInt 1)])].

Definition nothing_matched_response : response :=
  {| body := VDict [("matchedCount", VInt 0); ("modifiedCount", VInt 0);
                    ("upsertedId", VNone)];
     status := 200 |}.

(** An exception whose [str()] is empty, as [MemoryError()] or a bare
    [AssertionError()] are. *)
Definition SILENT : exn := Raised "MemoryError" "".

(** *** Definitions used by the further properties *)

(** The integers [0 .. n-1]. *)
Definition below (n : nat) : list Z := map Z.of_nat (seq 0 n).

Definition is_byte (b : Z) : Prop := 0 <= b < 256.
Definition is_ascii (c : Z) : Prop := 0 <= c < 128.

(** The text that a client puts under base64: user name, colon, password. *)
Definition userpass (user pass : list Z) : list Z := user ++ COLON :: pass.

(** The header that a client following the scheme sends for a user name and
    a password written in ASCII. *)
Definition basic_header (user pass : list Z) : string :=
  ("Basic " ++ b64encode (userpass user pass))%string.

(** The fields that each handler reads with [data.get(...)], each with its
    default. *)
Definition optional_fields (a : action) : list (string * value) :=
  match a with
  | Find => [("filter", VDict []); ("limit", VNone); ("skip", VInt 0)]
  | UpdateOne | UpdateMany | DeleteOne | DeleteMany => [("filter", VDict [])]
  | InsertOne | InsertMany | Aggregate => []
  end.

Definition fields_read (a : action) : list string :=
  required_fields a ++ map fst (optional_fields a).

(** What each handler asks of the driver on the body [kvs], in order, when
    no call raises. *)
Definition action_calls (a : action) (kvs : document) : list event :=
  match a with
  | Find => find_calls kvs
  | _ =>
      EvCollection (get_or kvs "database" VNone) (get_or kvs "collection" VNone)
      :: match a with
         | InsertOne => [EvInsertOne (get_or kvs "document" VNone)]
         | InsertMany => [EvInsertMany (get_or kvs "documents" VNone)]
         | Aggregate => [EvAggregate (get_or kvs "pipeline" VNone); EvIterate]
         | UpdateOne =>
             [EvUpdateOne (get_or kvs "filter" (VDict []))
                          (get_or kvs "update" VNone)]
         | UpdateMany =>
             [EvUpdateMany (get_or kvs "filter" (VDict []))
                           (get_or kvs "update" VNone)]
         | DeleteOne => [EvDeleteOne (get_or kvs "filter" (VDict []))]
         | DeleteMany => [EvDeleteMany (get_or kvs "filter" (VDict []))]
         | Find => []
         end
  end.

(** The calls that change the documents of a collection, and how many of
    them an endpoint may make. *)
Definition is_write_event (e : event) : bool :=
  match e with
  | EvInsertOne _ | EvInsertMany _
  | EvUpdateOne _ _ | EvUpdateMany _ _
  | EvDeleteOne _ | EvDeleteMany _ => true
  | _ => false
  end.

Definition writes_allowed (a : action) : nat :=
  match a with
  | Find | Aggregate => 0%nat
  | _ => 1%nat
  end.

(** How a document of an answer relates to the document that the cursor
    yielded, as a JSON object (whose members are looked up by key, in no
    order): the same value under every key but [_id], under [_id] the [str()]
    of the value, and no [_id] when the yielded document has none. *)
Definition rendered_from (py_str : value -> string) (doc out : document) : Prop :=
  (forall k, k <> "_id" -> dict_get k out = dict_get k doc) /\
  (dict_get "_id" doc = None -> dict_get "_id" out = None) /\
  (forall id, dict_get "_id" doc = Some id ->
              dict_get "_id" out = Some (VStr (py_str id))).

(** The number of base64 digits among the characters of a payload. *)
Definition count_digits (cs : list Z) : Z :=
  Z.of_nat (List.length
              (filter (fun c => match table_a2b_base64 c with
                                | Some _ => true
                                | None => false
                                end) cs)).

(** The text of the encoder's refusal. *)
Definition NOT_SERIALIZABLE : string :=
  "Object of type ObjectId is not JSON serializable".

(** *** More sample requests and stores *)

Definition update_all_request : request :=
  authed [("update", set_x)].

Definition all_updated_response : response :=
  {| body := VDict [("matchedCount", VInt 5); ("modifiedCount", VInt 5)];
     status := 200 |}.

Definition delete_all_request : request := authed [].

Definition all_deleted_response : response :=
  {| body := VDict [("deletedCount", VInt 5)]; status := 200 |}.

Definition five_documents_response : response :=
  match fst (@find MemDriver mem_str (authed []) five_items) with
  | Ok r => r
  | Raise _ => unauthorized_response
  end.

(** The five documents as the sample driver stores and yields them. *)
Definition five_yielded : list document :=
  map (fun n => [("_id", VObjectId (oid_bytes n)); ("n", VInt n)])
      [1; 2; 3; 4; 5].

(** A body that names the sample collection and nothing else. *)
Definition items_only : document :=
  [("database", VStr "test_db"); ("collection", VStr "items")].

(** A store whose only document refers to another one by its identifier. *)
Definition referring_document : document :=
  [("_id", VObjectId (oid_bytes 1)); ("owner", VObjectId (oid_bytes 7))].

Definition with_reference : @world MemDriver :=
  @Build_world MemDriver
    {| next_oid := 2; colls := [(("test_db", "items"), [referring_document])] |}
    [].

Definition list_all : document :=
  [("database", VStr "test_db"); ("collection", VStr "items");
   ("pipeline", VList [])].

Definition nameless : document :=
  [("database", VStr ""); ("collection", VStr "items");
   ("document", item 1)].

(** *** The handlers without the log

    What the specification says of each endpoint, written directly on the
    operations of the driver: which operation is applied to what, what the
    answer is made of.  The handlers are compared with these. *)

Section Direct.

Context {D : Driver}.
Variable py_str : value -> string.

(** One operation, then another on its result; an exception ends the run in
    the store that the failing operation left. *)
Definition and_then {A B : Type} (op : db -> result A * db)
           (k : A -> db -> result B * db) : db -> result B * db :=
  fun d =>
    match op d with
    | (Ok a, d') => k a d'
    | (Raise e, d') => (Raise e, d')
    end.

Definition returning {A B : Type} (op : db -> result A * db) (f : A -> B)
  : db -> result B * db :=
  and_then op (fun a d => (Ok (f a), d)).

(** The limit of a find: the body's [limit] when it has one that counts,
    otherwise none (unbounded). *)
Definition effective_limit (kvs : document) : option value :=
  match dict_get "limit" kvs with
  | Some l => if truthy l then Some l else None
  | None => None
  end.

(** The documents of a find: the skip is applied to the cursor of the
    filter, the limit (if any) to the cursor that the skip returned, and the
    resulting cursor is read. *)
Definition skipped_then_limited (c : collection) (filter_doc skip : value)
           (limit : option value) : db -> result (list document) * db :=
  and_then (coll_find c filter_doc) (fun cursor0 =>
  and_then (cursor_skip cursor0 skip) (fun cursor1 =>
  match limit with
  | Some l => and_then (cursor_limit cursor1 l) cursor_iter
  | None => cursor_iter cursor1
  end)).

(** The documents of an aggregate. *)
Definition aggregated (c : collection) (pipeline : value)
  : db -> result (list document) * db :=
  and_then (coll_aggregate c pipeline) cursor_iter.

(** The body made of the documents read from a cursor. *)
Definition documents_of (yielded : list document) : value :=
  VDict [("documents", VList (map VDict (map (stringify_id py_str) yielded)))].

Definition updated_one (c : collection) (filter_doc update_doc : value)
  : db -> result value * db :=
  returning (coll_update_one c filter_doc update_doc)
    (fun r => VDict [("matchedCount", VInt (matched_count r));
                     ("modifiedCount", VInt (modified_count r));
                     ("upsertedId",
                      if truthy (upserted_id r)
                      then VStr (py_str (upserted_id r))
                      else VNone)]).

Definition updated_many (c : collection) (filter_doc update_doc : value)
  : db -> result value * db :=
  returning (coll_update_many c filter_doc update_doc)
    (fun r => VDict [("matchedCount", VInt (matched_count r));
                     ("modifiedCount", VInt (modified_count r))]).

Definition deleted_one (c : collection) (filter_doc : value)
  : db -> result value * db :=
  returning (coll_delete_one c filter_doc)
    (fun n => VDict [("deletedCount", VInt n)]).

Definition deleted_many (c : collection) (filter_doc : value)
  : db -> result value * db :=
  returning (coll_delete_many c filter_doc)
    (fun n => VDict [("deletedCount", VInt n)]).

(** The operation of each endpoint on the collection [c], with its
    arguments taken from the body, and the body of its answer. *)
Definition operation (a : action) (c : collection) (kvs : document)
  : db -> result value * db :=
  match a with
  | InsertOne =>
      returning (coll_insert_one c (get_or kvs "document" VNone))
        (fun id => VDict [("insertedId", VStr (py_str id));
                          ("insertedCount", VInt 1)])
  | InsertMany =>
      returning (coll_insert_many c (get_or kvs "documents" VNone))
        (fun ids => VDict [("insertedIds", VList (map (fun id => VStr (py_str id)) ids));
                           ("insertedCount", VInt (Z.of_nat (List.length ids)))])
  | Find =>
      returning (skipped_then_limited c (get_or kvs "filter" (VDict []))
                   (get_or kvs "skip" (VInt 0)) (effective_limit kvs))
                documents_of
  | Aggregate =>
      returning (aggregated c (get_or kvs "pipeline" VNone)) documents_of
  | UpdateOne =>
      updated_one c (get_or kvs "filter" (VDict [])) (get_or kvs "update" VNone)
  | UpdateMany =>
      updated_many c (get_or kvs "filter" (VDict [])) (get_or kvs "update" VNone)
  | DeleteOne => deleted_one c (get_or kvs "filter" (VDict []))
  | DeleteMany => deleted_many c (get_or kvs "filter" (VDict []))
  end.

(** The answer to an authenticated request, from the outcome of its
    operation: 200 with the body when the encoder takes it, 500 with the text
    of the exception otherwise. *)
Definition answer (r : result value) : response :=
  match r with
  | Ok v =>
      if json_safe v then {| body := v; status := 200 |}
      else error_response
             (TypeError "Object of type ObjectId is not JSON serializable")
  | Raise e => error_response e
  end.

(** A run of a handler is the outcome of an operation of the driver: its
    response is the answer made from what the operation returned or raised,
    and it leaves the store as the operation left it. *)
Definition is_outcome_of (run : result response * world)
           (op : result value * db) : Prop :=
  fst run = Ok (answer (fst op)) /\ w_db (snd run) = snd op.

End Direct.

(** ** Part II. Properties *)

(** *** Authentication *)

Lemma startswith_app (s p : string) :
  startswith s p = true -> s = (p ++ slice_from (String.length p) s)%string.
Proof.
  revert s. induction p as [|a p IH]; intros s H.
  - reflexivity.
  - destruct s as [|b s]; simpl in H; [discriminate|].
    apply andb_true_iff in H. destruct H as [Hab Hs].
    apply Ascii.eqb_eq in Hab. subst b. simpl.
    f_equal. apply IH. exact Hs.
Qed.

Lemma startswith_prefix (p r : string) : startswith (p ++ r) p = true.
Proof.
  induction p as [|a p IH]; simpl.
  - destruct r; reflexivity.
  - rewrite Ascii.eqb_refl. exact IH.
Qed.

Lemma slice_from_prefix (p r : string) :
  slice_from (String.length p) (p ++ r) = r.
Proof. induction p as [|a p IH]; simpl; [reflexivity | exact IH]. Qed.

Lemma cps_eqb_eq (a b : list Z) : cps_eqb a b = true <-> a = b.
Proof.
  revert b. induction a as [|x a IH]; intros [|y b]; simpl; split; intros H;
    try reflexivity; try discriminate.
  - apply andb_true_iff in H. destruct H as [Hx Ha].
    apply Z.eqb_eq in Hx. apply IH in Ha. congruence.
  - injection H as -> ->. rewrite Z.eqb_refl. simpl. apply IH. reflexivity.
Qed.

(** [split1] never returns the empty list. *)
Lemma split1_not_nil (sep : Z) (s : list Z) : split1 sep s <> [].
Proof.
  induction s as [|c r IH]; simpl; [discriminate|].
  destruct (c =? sep); [discriminate|].
  destruct (split1 sep r); [contradiction | discriminate].
Qed.

(** The two-name unpacking succeeds exactly when the separator occurs, and
    it cuts at its first occurrence. *)
Lemma unpack2_split1 (sep : Z) (s u p : list Z) :
  unpack2 (split1 sep s) = Some (u, p) <->
  s = u ++ sep :: p /\ ~ In sep u.
Proof.
  revert u. induction s as [|c r IH]; intros u; simpl.
  - split; [discriminate|]. intros [H _]. destruct u; discriminate.
  - destruct (Z.eqb_spec c sep) as [->|Hc].
    + simpl. split.
      * intros H. injection H as <- <-. split; [reflexivity | intros []].
      * intros [H Hu]. destruct u as [|x u].
        -- simpl in H. injection H as ->. reflexivity.
        -- simpl in H. injection H as -> _. exfalso. apply Hu. left. reflexivity.
    + destruct (split1 sep r) as [|h t] eqn:E.
      * exfalso. exact (split1_not_nil sep r E).
      * split.
        -- intros H. destruct t as [|p' [|? ?]]; simpl in H; try discriminate.
           injection H as <- <-.
           destruct (proj1 (IH h) eq_refl) as [-> Hh].
           split; [reflexivity|].
           intros [Hx|Hx]; [congruence | exact (Hh Hx)].
        -- intros [H Hu]. destruct u as [|x u].
           ++ simpl in H. injection H as -> _. contradiction.
           ++ simpl in H. injection H as -> ->.
              assert (Hu' : ~ In sep u) by (intros Hx; apply Hu; right; exact Hx).
              pose proof (proj2 (IH u) (conj eq_refl Hu')) as H.
              destruct t as [|p' [|? ?]]; simpl in H; try discriminate.
              injection H as <- <-. reflexivity.
Qed.

Lemma check_credentials_true (h : string) :
  check_credentials h = Some true <-> carries_credentials (slice_from 6 h).
Proof.
  unfold check_credentials, carries_credentials. split.
  - destruct (b64decode (slice_from 6 h)) as [raw|]; [|discriminate].
    destruct (utf8_decode raw) as [credentials|] eqn:Eu; [|discriminate].
    destruct (unpack2 (split1 COLON credentials)) as [[u p]|] eqn:Es;
      [|discriminate].
    intros H. injection H as H. apply andb_true_iff in H. destruct H as [Hu Hp].
    apply cps_eqb_eq in Hu. apply cps_eqb_eq in Hp.
    apply unpack2_split1 in Es. destruct Es as [-> Hn].
    exists raw, u, p. repeat split; assumption.
  - intros (raw & u & p & -> & -> & Hn & Hu & Hp).
    rewrite (proj2 (unpack2_split1 COLON (u ++ COLON :: p) u p) (conj eq_refl Hn)).
    rewrite (proj2 (cps_eqb_eq _ _) Hu), (proj2 (cps_eqb_eq _ _) Hp).
    reflexivity.
Qed.

Lemma authenticate_header_true (h : string) :
  authenticate_header h = true <-> decodes_to_credentials h.
Proof.
  unfold authenticate_header, decodes_to_credentials. split.
  - destruct (startswith h "Basic ") eqn:Ep; simpl; [|discriminate].
    apply startswith_app in Ep. simpl String.length in Ep.
    destruct (check_credentials h) as [[|]|] eqn:Ec; try discriminate.
    intros _. exists (slice_from 6 h). split; [exact Ep|].
    apply check_credentials_true. exact Ec.
  - intros (payload & -> & Hc).
    rewrite (startswith_prefix "Basic " payload). simpl negb. cbv iota.
    apply (check_credentials_true ("Basic " ++ payload)) in Hc.
    rewrite Hc. reflexivity.
Qed.

(** The decoder does not see the characters outside the alphabet. *)
Lemma a2b_base64_skips_other_characters (cs : list Z) :
  forall quad_pos leftchar pads,
    a2b_base64 quad_pos leftchar pads (filter is_base64_char cs)
    = a2b_base64 quad_pos leftchar pads cs.
Proof.
  induction cs as [|c cs IH]; intros quad_pos leftchar pads; [reflexivity|].
  simpl filter. unfold is_base64_char at 1.
  destruct (c =? BASE64_PAD) eqn:Ep.
  - simpl. rewrite Ep. rewrite !IH. reflexivity.
  - destruct (table_a2b_base64 c) as [d|] eqn:Et; simpl; rewrite Ep, Et.
    + rewrite !IH. reflexivity.
    + apply IH.
Qed.

Example utf8_decode_samples :
  utf8_decode [195; 169] = Some [233] /\
  utf8_decode [240; 159; 152; 128] = Some [128512] /\
  utf8_decode [192; 128] = None /\
  utf8_decode [237; 160; 128] = None /\
  utf8_decode [244; 144; 128; 128] = None /\
  utf8_decode [226; 130] = None.
Proof. vm_compute. repeat split. Qed.

(** C1, as the code has it.  The authenticator allows a header exactly when
    it is the scheme prefix followed by a payload that the base64 decoder
    accepts and that decodes, as UTF-8, to the user name, a colon and the
    password (cut at the first colon); it denies every other header, and a
    request without the header.  It is a total function to [bool]: every
    failure of a parsing step is a denial. *)
Theorem authenticate_allows_exactly_decoded_credentials :
  forall h : string,
    (authenticate_header h = true <-> decodes_to_credentials h) /\
    (authenticate_header h = false <-> ~ decodes_to_credentials h) /\
    (forall j, authenticate_request {| authorization := Some h; json := j |}
               = authenticate_header h) /\
    (forall j, authenticate_request {| authorization := None; json := j |} = false).
Proof.
  intros h. repeat split.
  - apply authenticate_header_true.
  - apply authenticate_header_true.
  - intros Hf Hd. apply authenticate_header_true in Hd. congruence.
  - intros Hn. destruct (authenticate_header h) eqn:E; [|reflexivity].
    exfalso. apply Hn. apply authenticate_header_true. exact E.
Qed.

(** C1, as stated, fails: the decoder skips characters outside the alphabet,
    so a payload that is not valid base64 is allowed. *)
Lemma lenient_payload_is_allowed :
  authenticate_header "Basic !dGVzdHVzZXI6dGVzdHBhc3M=" = true /\
  ~ valid_base64_credentials "Basic !dGVzdHVzZXI6dGVzdHBhc3M=".
Proof.
  split.
  - vm_compute. reflexivity.
  - intros (payload & Hh & Ha & _).
    injection Hh as <-. vm_compute in Ha. discriminate.
Qed.

(** The canonical encoding of the configured pair is allowed, and it is
    valid base64 under the stricter reading too. *)
Lemma canonical_header_is_allowed :
  b64encode (codepoints "testuser:testpass") = "dGVzdHVzZXI6dGVzdHBhc3M=" /\
  authenticate_header "Basic dGVzdHVzZXI6dGVzdHBhc3M=" = true /\
  in_base64_alphabet "dGVzdHVzZXI6dGVzdHBhc3M=" = true.
Proof. vm_compute. repeat split. Qed.

(** Denials at the kinds of input the specification lists: wrong scheme,
    payload that does not decode, no separator, wrong password, bytes that
    are not UTF-8, characters that are not ASCII. *)
Lemma malformed_headers_are_denied :
  authenticate_header "" = false /\
  authenticate_header "Bearer dGVzdHVzZXI6dGVzdHBhc3M=" = false /\
  authenticate_header "basic dGVzdHVzZXI6dGVzdHBhc3M=" = false /\
  authenticate_header "Basic dGVzdHVzZXI6dGVzdHBhc3M" = false /\
  authenticate_header "Basic dGVzdHVzZXI=" = false /\
  authenticate_header "Basic dGVzdHVzZXI6d3Jvbmc=" = false /\
  authenticate_header "Basic /w==" = false /\
  authenticate_header (String (chr 233) "Basic ") = false.
Proof. vm_compute. repeat split. Qed.

(** *** The handlers *)

Section HandlerProperties.

Context {D : Driver}.
Variable py_str : value -> string.

Lemma respond_ok (v : value) (code : Z) (w : world) :
  json_safe v = true ->
  respond v code w = (Ok {| body := v; status := code |}, w).
Proof. intros H. unfold respond, bind, lift, jsonify. rewrite H. reflexivity. Qed.

Lemma respond_inv (v : value) (code : Z) (w w' : world) (r : response) :
  respond v code w = (Ok r, w') ->
  r = {| body := v; status := code |} /\ w' = w /\ json_safe v = true.
Proof.
  unfold respond, bind, lift, jsonify, ret.
  destruct (json_safe v); intros H; inversion H; auto.
Qed.

Lemma unauthorized_run (w : world) :
  unauthorized w = (Ok unauthorized_response, w).
Proof. apply respond_ok. reflexivity. Qed.

Lemma report_error_run (e : exn) (w : world) :
  report_error e w = (Ok (error_response e), w).
Proof. apply respond_ok. reflexivity. Qed.

Lemma denied_run (a : action) (rq : request) (w : world) :
  authenticate_request rq = false ->
  action_handler py_str a rq w = (Ok unauthorized_response, w).
Proof.
  intros H.
  destruct a; simpl;
    unfold insert_one, insert_many, find, aggregate, update_one, update_many,
      delete_one, delete_many;
    rewrite H; simpl; apply unauthorized_run.
Qed.

(** C2.  On each of the eight action endpoints, a request that the
    authenticator denies is answered with status 401 and the body
    [{error: "Unauthorized"}]; the store is left as it was and nothing is
    observed of the handler: no driver call is made. *)
Theorem denied_request_gets_401_and_no_database_call :
  forall (a : action) (rq : request) (w : world),
    authenticate_request rq = false ->
    exists w',
      action_handler py_str a rq w =
        (Ok {| body := VDict [("error", VStr "Unauthorized")]; status := 401 |}, w')
      /\ w_db w' = w_db w
      /\ filter is_db_event (w_log w') = filter is_db_event (w_log w).
Proof.
  intros a rq w H. exists w. rewrite (denied_run a rq w H). auto.
Qed.

(** C9.  The credentials are checked before the body is looked at: for a
    denied request the answer is 401 whatever [get_json] would have done (a
    body that is missing, that is not JSON, that lacks fields), and
    [get_json] is not called. *)
Theorem denied_request_body_is_not_read :
  forall (a : action) (h : option string) (j : result value) (w : world),
    authenticate_request {| authorization := h; json := j |} = false ->
    (forall j', action_handler py_str a {| authorization := h; json := j' |} w
                = action_handler py_str a {| authorization := h; json := j |} w)
    /\ exists resp w',
         action_handler py_str a {| authorization := h; json := j |} w = (Ok resp, w')
         /\ status resp = 401
         /\ w_log w' = w_log w.
Proof.
  intros a h j w H. split.
  - intros j'. rewrite (denied_run a _ w H).
    apply denied_run. exact H.
  - exists unauthorized_response, w. rewrite (denied_run a _ w H). auto.
Qed.

Lemma health_run (rq : request) (w : world) :
  health rq w =
    (Ok (match fst (admin_ping (w_db w)) with
         | Ok _ =>
             {| body := VDict [("status", VStr "healthy");
                               ("message", VStr "DocumentDB API server is running")];
                status := 200 |}
         | Raise e =>
             {| body := VDict [("status", VStr "unhealthy");
                               ("error", VStr (str_exn e))];
                status := 500 |}
         end),
     {| w_db := snd (admin_ping (w_db w)); w_log := w_log w ++ [EvPing] |}).
Proof.
  unfold health, try_except, bind, call.
  destruct (admin_ping (w_db w)) as [[[]|e] d];
    rewrite respond_ok by reflexivity; reflexivity.
Qed.

(** C8.  The health handler never looks at the request, so no credential is
    asked for or checked: whatever the [Authorization] header, it pings the
    store once and answers 200 with [{status: "healthy", message}] (a fixed
    message) when the ping returns, 500 with [{status: "unhealthy", error}]
    carrying the text of the exception when it raises. *)
Theorem health_pings_without_authentication :
  forall (rq rq' : request) (w : world),
    health rq w = health rq' w /\
    health rq w =
      (Ok (match fst (admin_ping (w_db w)) with
           | Ok _ =>
               {| body := VDict [("status", VStr "healthy");
                                 ("message", VStr "DocumentDB API server is running")];
                  status := 200 |}
           | Raise e =>
               {| body := VDict [("status", VStr "unhealthy");
                                 ("error", VStr (str_exn e))];
                  status := 500 |}
           end),
       {| w_db := snd (admin_ping (w_db w)); w_log := w_log w ++ [EvPing] |}).
Proof.
  intros rq rq' w. split.
  - rewrite (health_run rq w), (health_run rq' w). reflexivity.
  - apply health_run.
Qed.


(** **** Rules for [ensures] *)

Lemma ensures_bind {A B} (m : M A) (k : A -> M B) (P : B -> Prop) :
  (forall a, ensures (k a) P) -> ensures (bind m k) P.
Proof.
  intros Hk w b w' H. unfold bind in H.
  destruct (m w) as [[a|e] w1]; [|discriminate].
  exact (Hk a w1 b w' H).
Qed.

Lemma ensures_respond (v : value) (code : Z) :
  ensures (respond v code)
          (fun r => r = {| body := v; status := code |} /\ json_safe v = true).
Proof.
  intros w r w' H. apply respond_inv in H. destruct H as (H1 & _ & H2). auto.
Qed.

Lemma ensures_weaken {A} (m : M A) (P Q : A -> Prop) :
  (forall a, P a -> Q a) -> ensures m P -> ensures m Q.
Proof. intros HPQ Hm w a w' H. apply HPQ. exact (Hm w a w' H). Qed.

Ltac ensures_steps :=
  repeat match goal with
         | |- ensures (bind _ _) _ => apply ensures_bind; intros ?
         end;
  eapply ensures_weaken; [|apply ensures_respond].

(** A [try] block that returns has answered 200 with a body that the JSON
    encoder took. *)
Lemma action_try_ok (a : action) (rq : request) :
  ensures (action_try py_str a rq)
          (fun r => status r = 200 /\ json_safe (body r) = true).
Proof.
  destruct a; simpl;
    unfold insert_one_try, insert_many_try, find_try, aggregate_try,
      update_one_try, update_many_try, delete_one_try, delete_many_try;
    ensures_steps; intros r [-> Hs]; auto.
Qed.

(** The [except] clause turns every exception of the block into a 500. *)
Lemma try_report (m : M response) (w : world) :
  exists resp w',
    try_except m report_error w = (Ok resp, w') /\
    (m w = (Ok resp, w') \/
     exists e, m w = (Raise e, w') /\ resp = error_response e).
Proof.
  unfold try_except. destruct (m w) as [[r|e] w1].
  - exists r, w1. auto.
  - exists (error_response e), w1. rewrite report_error_run. eauto.
Qed.

Lemma allowed_run (a : action) (rq : request) (w : world) :
  authenticate_request rq = true ->
  action_handler py_str a rq w
  = try_except (action_try py_str a rq) report_error w.
Proof.
  intros H.
  destruct a; simpl;
    unfold insert_one, insert_many, find, aggregate, update_one, update_many,
      delete_one, delete_many;
    rewrite H; reflexivity.
Qed.

(** The text of a [KeyError] is never empty. *)
Lemma str_exn_KeyError_nonempty (key : string) : str_exn (KeyError key) <> "".
Proof. simpl. discriminate. Qed.

(** The handler's own lookups raise with a text that is not empty. *)
Lemma getitem_raise_nonempty (data : value) (key : string) (e : exn) :
  getitem data key = Raise e -> str_exn e <> "".
Proof.
  destruct data; simpl; try (intros H; injection H as <-; simpl; discriminate).
  destruct (dict_get key kvs); [discriminate|].
  intros H; injection H as <-; simpl; discriminate.
Qed.


(** A body that lacks a field the handler subscripts: the lookup raises
    [KeyError] before any driver call. *)
Lemma missing_field_run (a : action) (rq : request) (w : world)
      (kvs : document) (key : string) :
  authenticate_request rq = true ->
  json rq = Ok (VDict kvs) ->
  first_missing (required_fields a) kvs = Some key ->
  action_handler py_str a rq w
  = (Ok (error_response (KeyError key)),
     {| w_db := w_db w; w_log := w_log w ++ [EvGetJson] |}).
Proof.
  intros Ha Hj Hm. rewrite (allowed_run a rq w Ha).
  unfold first_missing, dict_contains in Hm.
  destruct a; simpl in Hm; simpl action_try;
    unfold insert_one_try, insert_many_try, find_try, aggregate_try,
      update_one_try, update_many_try, delete_one_try, delete_many_try;
    unfold try_except, bind, get_json, call, lift; rewrite Hj;
    cbn [getitem dict_get_default];
    repeat match goal with
           | |- context [dict_get ?k kvs] =>
               destruct (dict_get k kvs) eqn:?; simpl in Hm
           end;
    try discriminate;
    injection Hm as <-; apply report_error_run.
Qed.

(** C3, as the code has it.  An authenticated request to an action endpoint
    is always answered: with status 200 when the [try] block returns, and
    otherwise with status 500 and the body [{error: str(e)}] for the
    exception [e] that the block raised, its text unchanged.  When the body
    lacks a field that the handler subscripts, [e] is the [KeyError] of the
    first such field, whose text (the field name between quotes) is not empty,
    and no driver call has been made. *)
Theorem authenticated_action_answers_200_or_500 :
  forall (a : action) (rq : request) (w : world),
    authenticate_request rq = true ->
    (exists resp w',
        action_handler py_str a rq w = (Ok resp, w') /\
        ((action_try py_str a rq w = (Ok resp, w') /\ status resp = 200) \/
         (exists e,
             action_try py_str a rq w = (Raise e, w') /\
             resp = {| body := VDict [("error", VStr (str_exn e))];
                       status := 500 |})))
    /\
    (forall kvs key,
        json rq = Ok (VDict kvs) ->
        first_missing (required_fields a) kvs = Some key ->
        action_handler py_str a rq w
        = (Ok {| body := VDict [("error", VStr ("'" ++ key ++ "'")%string)];
                 status := 500 |},
           {| w_db := w_db w; w_log := w_log w ++ [EvGetJson] |})
        /\ ("'" ++ key ++ "'")%string <> "").
Proof.
  intros a rq w Ha. split.
  - rewrite (allowed_run a rq w Ha).
    destruct (try_report (action_try py_str a rq) w) as (resp & w' & Ht & Hc).
    exists resp, w'. split; [exact Ht|].
    destruct Hc as [Hok | (e & He & ->)].
    + left. split; [exact Hok|].
      exact (proj1 (action_try_ok a rq w resp w' Hok)).
    + right. exists e. split; [exact He | reflexivity].
  - intros kvs key Hj Hm. split.
    + exact (missing_field_run a rq w kvs key Ha Hj Hm).
    + apply (str_exn_KeyError_nonempty key).
Qed.


(** **** The loops over a cursor *)

Lemma collect_map (yielded : list document) :
  collect py_str yielded = map (stringify_id py_str) yielded.
Proof.
  unfold collect.
  assert (G : forall acc,
             fold_left (fun documents doc => documents ++ [stringify_id py_str doc])
                       yielded acc
             = acc ++ map (stringify_id py_str) yielded).
  { induction yielded as [|doc rest IH]; intros acc; simpl.
    - rewrite app_nil_r. reflexivity.
    - rewrite IH, <- app_assoc. reflexivity. }
  apply (G []).
Qed.

Lemma dict_get_set_same (k : string) (v : value) (d : document) :
  dict_get k (dict_set k v d) = Some v.
Proof.
  induction d as [|[k' v'] d IH]; simpl.
  - rewrite String.eqb_refl. reflexivity.
  - destruct (String.eqb k k') eqn:E; simpl.
    + rewrite String.eqb_refl. reflexivity.
    + rewrite E. exact IH.
Qed.

(** After the loop body a document that has an [_id] has a string there. *)
Lemma stringify_id_string (doc : document) (id : value) :
  dict_get "_id" (stringify_id py_str doc) = Some id -> exists s, id = VStr s.
Proof.
  unfold stringify_id. destruct (dict_get "_id" doc) as [v|] eqn:E.
  - rewrite dict_get_set_same. intros H. injection H as <-. eauto.
  - rewrite E. discriminate.
Qed.

Lemma collect_ids (yielded : list document) :
  Forall id_is_string (collect py_str yielded).
Proof.
  rewrite collect_map. apply Forall_forall. intros doc Hin.
  apply in_map_iff in Hin. destruct Hin as (doc0 & <- & _).
  intros id. apply stringify_id_string.
Qed.

Lemma cursor_try_documents (a : action) (rq : request) :
  a = Find \/ a = Aggregate ->
  ensures (action_try py_str a rq)
          (fun r => exists documents,
               body r = VDict [("documents", VList (map VDict documents))] /\
               Forall id_is_string documents).
Proof.
  intros [-> | ->]; simpl; unfold find_try, aggregate_try;
    ensures_steps; intros r [-> _]; simpl;
    eexists; (split; [reflexivity | apply collect_ids]).
Qed.

(** C4.  Every endpoint always answers, and no answer carries a native
    identifier: the body is free of [ObjectId] at every depth.  In an answer
    200 of find or aggregate, each document that has an [_id] has a string
    there.  (A document with an [ObjectId] in another field makes the encoder
    raise, and the answer is the 500 of the [except] clause.) *)
Theorem responses_carry_no_native_identifier :
  forall (a : action) (rq : request) (w : world),
    (exists resp w',
        action_handler py_str a rq w = (Ok resp, w') /\
        json_safe (body resp) = true /\
        (status resp = 200 ->
         a = Find \/ a = Aggregate ->
         exists documents,
           body resp = VDict [("documents", VList (map VDict documents))] /\
           Forall (fun doc =>
                     forall id, dict_get "_id" doc = Some id ->
                                exists s, id = VStr s) documents))
    /\
    (exists resp w',
        health rq w = (Ok resp, w') /\ json_safe (body resp) = true).
Proof.
  intros a rq w. split.
  - destruct (authenticate_request rq) eqn:Ha.
    + rewrite (allowed_run a rq w Ha).
      destruct (try_report (action_try py_str a rq) w) as (resp & w' & Ht & Hc).
      exists resp, w'. split; [exact Ht|].
      destruct Hc as [Hok | (e & He & ->)].
      * split; [exact (proj2 (action_try_ok a rq w resp w' Hok))|].
        intros _ Hfa. exact (cursor_try_documents a rq Hfa w resp w' Hok).
      * split; [reflexivity|]. simpl. discriminate.
    + rewrite (denied_run a rq w Ha).
      exists unauthorized_response, w. split; [reflexivity|].
      split; [reflexivity|]. simpl. discriminate.
  - rewrite (health_run rq w).
    eexists. eexists. split; [reflexivity|].
    destruct (fst (admin_ping (w_db w))); reflexivity.
Qed.


(** **** Inserts and updates *)

(** Case analysis along a run that is known to have returned. *)
Ltac run_cases H :=
  repeat match type of H with
         | context [match ?x with (_, _) => _ end] => destruct x as [[?|?] ?] eqn:?
         | context [match ?x with Ok _ => _ | Raise _ => _ end] => destruct x eqn:?
         end.

Ltac call_cases :=
  repeat match goal with
         | H : (let (_, _) := ?op in _) = (_, _) |- _ =>
             destruct op as [? ?] eqn:?; injection H as ? ?; subst
         end.

Lemma ok_200_allowed (a : action) (rq : request) (w w' : world) (resp : response) :
  action_handler py_str a rq w = (Ok resp, w') ->
  status resp = 200 ->
  action_try py_str a rq w = (Ok resp, w').
Proof.
  intros H Hs. destruct (authenticate_request rq) eqn:Ha.
  - rewrite (allowed_run a rq w Ha) in H.
    destruct (try_report (action_try py_str a rq) w) as (r & w1 & Ht & Hc).
    rewrite Ht in H. injection H as -> ->.
    destruct Hc as [Hok | (e & _ & ->)]; [exact Hok | discriminate].
  - rewrite (denied_run a rq w Ha) in H. injection H as <- _. discriminate.
Qed.

Lemma insert_many_ok (rq : request) (w w' : world) (resp : response) :
  insert_many_try py_str rq w = (Ok resp, w') ->
  exists data documents c d ids d',
    json rq = Ok data /\
    getitem data "documents" = Ok documents /\
    coll_insert_many c documents d = (Ok ids, d') /\
    resp = {| body := VDict [("insertedIds",
                              VList (map (fun id => VStr (py_str id)) ids));
                             ("insertedCount", VInt (Z.of_nat (List.length ids)))];
              status := 200 |}.
Proof.
  intros H.
  unfold insert_many_try, bind, get_json, get_collection, call, lift in H.
  run_cases H; try discriminate. call_cases.
  apply respond_inv in H. destruct H as (-> & _ & _).
  do 6 eexists.
  split; [reflexivity|]. split; [eassumption|]. split; [eassumption|reflexivity].
Qed.

Lemma insert_one_ok (rq : request) (w w' : world) (resp : response) :
  insert_one_try py_str rq w = (Ok resp, w') ->
  exists id,
    resp = {| body := VDict [("insertedId", VStr (py_str id));
                             ("insertedCount", VInt 1)];
              status := 200 |}.
Proof.
  intros H.
  unfold insert_one_try, bind, get_json, get_collection, call, lift in H.
  run_cases H; try discriminate. call_cases.
  apply respond_inv in H. destruct H as (-> & _ & _).
  eexists; reflexivity.
Qed.

(** C6.  With a driver that returns one identifier for each document: a
    successful insertMany of [N] documents answers with [N] identifiers, all
    strings, and with [insertedCount = N]; a successful insertOne answers
    [{insertedId, insertedCount: 1}] with a string identifier. *)
Theorem insert_responses_count_the_documents :
  one_id_per_document D ->
  forall (rq : request) (w w' : world) (resp : response),
    status resp = 200 ->
    (insert_many py_str rq w = (Ok resp, w') ->
     forall data docs,
       json rq = Ok data ->
       getitem data "documents" = Ok (VList docs) ->
       exists ids : list string,
         body resp = VDict [("insertedIds", VList (map VStr ids));
                            ("insertedCount", VInt (Z.of_nat (List.length docs)))]
         /\ List.length ids = List.length docs)
    /\
    (insert_one py_str rq w = (Ok resp, w') ->
     exists id : string,
       body resp = VDict [("insertedId", VStr id); ("insertedCount", VInt 1)]).
Proof.
  intros Hdrv rq w w' resp Hs. split.
  - intros H data docs Hj Hd.
    apply (ok_200_allowed InsertMany) in H; [|exact Hs]. simpl in H.
    apply insert_many_ok in H.
    destruct H as (data0 & documents & c & d & ids & d' & Hj0 & Hd0 & Hc & ->).
    rewrite Hj in Hj0. injection Hj0 as <-.
    rewrite Hd in Hd0. injection Hd0 as <-.
    apply Hdrv in Hc.
    exists (map py_str ids). simpl. rewrite map_map, length_map, Hc. auto.
  - intros H.
    apply (ok_200_allowed InsertOne) in H; [|exact Hs]. simpl in H.
    apply insert_one_ok in H. destruct H as (id & ->).
    exists (py_str id). reflexivity.
Qed.

Lemma update_one_ok (rq : request) (w w' : world) (resp : response) :
  update_one_try py_str rq w = (Ok resp, w') ->
  exists c f u d r d',
    coll_update_one c f u d = (Ok r, d') /\
    resp = {| body := VDict [("matchedCount", VInt (matched_count r));
                             ("modifiedCount", VInt (modified_count r));
                             ("upsertedId",
                              if truthy (upserted_id r)
                              then VStr (py_str (upserted_id r))
                              else VNone)];
              status := 200 |}.
Proof.
  intros H.
  unfold update_one_try, bind, get_json, get_collection, call, lift in H.
  run_cases H; try discriminate. call_cases.
  apply respond_inv in H. destruct H as (-> & _ & _).
  do 6 eexists. split; [eassumption | reflexivity].
Qed.

Lemma dict_get_default_ok (data : value) (k : string) (default v : value)
      (kvs : document) :
  data = VDict kvs ->
  dict_get_default data k default = Ok v -> v = get_or kvs k default.
Proof.
  intros -> H. unfold get_or. simpl in H.
  destruct (dict_get k kvs); injection H as <-; reflexivity.
Qed.

Lemma getitem_ok (data : value) (k : string) (v : value) :
  getitem data k = Ok v ->
  exists kvs, data = VDict kvs /\ get_or kvs k VNone = v.
Proof.
  destruct data as [| | | | |kvs|]; try discriminate.
  cbn [getitem]. intros H. exists kvs. split; [reflexivity|].
  unfold get_or. destruct (dict_get k kvs) eqn:E; [|discriminate].
  injection H as <-. reflexivity.
Qed.

(** A run of the [try] block of update_one that returns has called
    [update_one] of the driver, once, on the collection and with the filter
    and update of the body, from the store as the lookup of the collection
    left it. *)
Lemma update_one_links (rq : request) (w w' : world) (resp : response) :
  update_one_try py_str rq w = (Ok resp, w') ->
  exists kvs c d1 r,
    json rq = Ok (VDict kvs) /\
    client_collection (get_or kvs "database" VNone)
                      (get_or kvs "collection" VNone) (w_db w) = (Ok c, d1) /\
    coll_update_one c (get_or kvs "filter" (VDict []))
                    (get_or kvs "update" VNone) d1 = (Ok r, w_db w') /\
    resp = {| body := VDict [("matchedCount", VInt (matched_count r));
                             ("modifiedCount", VInt (modified_count r));
                             ("upsertedId",
                              if truthy (upserted_id r)
                              then VStr (py_str (upserted_id r))
                              else VNone)];
              status := 200 |}.
Proof.
  intros H.
  unfold update_one_try, bind, get_json, get_collection, call, lift in H.
  run_cases H; try discriminate. call_cases.
  apply respond_inv in H. destruct H as (-> & -> & _).
  repeat match goal with
         | E : getitem _ _ = Ok _ |- _ =>
             apply getitem_ok in E; destruct E as (? & ? & ?)
         end.
  subst.
  repeat match goal with
         | E : VDict _ = VDict _ |- _ => injection E as E; subst
         end.
  repeat match goal with
         | E : dict_get_default (VDict _) _ _ = Ok _ |- _ =>
             apply (dict_get_default_ok _ _ _ _ _ eq_refl) in E; subst
         end.
  cbn [w_db w_log] in *.
  do 4 eexists.
  split; [reflexivity|]. split; [eassumption|].
  split; [eassumption | reflexivity].
Qed.

(** C7.  A successful updateOne has called the driver's [update_one] once,
    on the collection named in the body, with the body's filter (or [{}]) and
    update, and answers with exactly the three fields [matchedCount],
    [modifiedCount] and [upsertedId]: the two counts that the call returned,
    and the [str()] of the upserted identifier, or null.  With a driver for
    which an update that matched nothing changed nothing, a call that matched
    no document is answered
    [{matchedCount: 0, modifiedCount: 0, upsertedId: null}]. *)
Theorem update_one_response_shape :
  no_match_no_change D ->
  forall (rq : request) (w w' : world) (resp : response),
    update_one py_str rq w = (Ok resp, w') ->
    status resp = 200 ->
    exists (kvs : document) (c : collection) (d1 : db) (r : update_result)
           (u : value),
      json rq = Ok (VDict kvs) /\
      client_collection (get_or kvs "database" VNone)
                        (get_or kvs "collection" VNone) (w_db w) = (Ok c, d1) /\
      coll_update_one c (get_or kvs "filter" (VDict []))
                      (get_or kvs "update" VNone) d1 = (Ok r, w_db w') /\
      body resp = VDict [("matchedCount", VInt (matched_count r));
                         ("modifiedCount", VInt (modified_count r));
                         ("upsertedId", u)]
      /\ (u = VNone \/ u = VStr (py_str (upserted_id r)))
      /\ (matched_count r = 0 ->
          body resp = VDict [("matchedCount", VInt 0);
                             ("modifiedCount", VInt 0);
                             ("upsertedId", VNone)]).
Proof.
  intros Hdrv rq w w' resp H Hs.
  apply (ok_200_allowed UpdateOne) in H; [|exact Hs]. simpl in H.
  apply update_one_links in H.
  destruct H as (kvs & c & d1 & r & Hj & Hc & Hu & ->).
  exists kvs, c, d1, r. eexists.
  split; [exact Hj|]. split; [exact Hc|]. split; [exact Hu|].
  split; [reflexivity|]. split.
  - destruct (truthy (upserted_id r)); auto.
  - intros Hm. simpl. destruct (Hdrv _ _ _ _ _ _ Hu Hm) as [-> ->].
    rewrite Hm. reflexivity.
Qed.


(** **** Rules for [traces] *)

Lemma traces_respond (v : value) (code : Z) : traces (respond v code) [].
Proof.
  intros w. exists []. unfold respond, bind, lift, ret.
  destruct (jsonify v); simpl; rewrite app_nil_r; split; auto.
  exists []. reflexivity.
Qed.

Lemma traces_lift {A B} (r : result A) (k : A -> M B) (plan : list event) :
  (forall a, r = Ok a -> traces (k a) plan) ->
  traces (bind (lift r) k) plan.
Proof.
  intros Hk w. unfold bind, lift. destruct r as [a|e].
  - exact (Hk a eq_refl w).
  - exists []. simpl. rewrite app_nil_r. split; [reflexivity|].
    exists plan. reflexivity.
Qed.

Lemma traces_ret {A B} (a : A) (k : A -> M B) (plan : list event) :
  traces (k a) plan -> traces (bind (ret a) k) plan.
Proof. intros Hk w. exact (Hk w). Qed.

Lemma traces_call {A B} (ev : event) (op : db -> result A * db)
      (k : A -> M B) (plan : list event) :
  (forall a, traces (k a) plan) ->
  traces (bind (call ev op) k) (ev :: plan).
Proof.
  intros Hk w. unfold bind, call.
  destruct (op (w_db w)) as [[a|e] d].
  - destruct (Hk a {| w_db := d; w_log := w_log w ++ [ev] |}) as (evs & Hl & Hr).
    exists (ev :: evs). split.
    + rewrite Hl. simpl. rewrite <- app_assoc. reflexivity.
    + destruct (fst (k a {| w_db := d; w_log := w_log w ++ [ev] |})).
      * rewrite Hr. reflexivity.
      * destruct Hr as (rest & ->). exists rest. reflexivity.
  - exists [ev]. simpl. split; [reflexivity|]. exists plan. reflexivity.
Qed.

(** The [except] clause adds nothing to the log. *)
Lemma traces_try_report (m : M response) (plan : list event) (w : world) :
  traces m plan ->
  exists evs rest resp w',
    try_except m report_error w = (Ok resp, w') /\
    w_log w' = w_log w ++ evs /\
    plan = evs ++ rest /\
    (m w = (Ok resp, w') /\ rest = [] \/
     exists e, m w = (Raise e, w') /\ resp = error_response e).
Proof.
  intros Hm. destruct (Hm w) as (evs & Hl & Hr).
  unfold try_except. destruct (m w) as [[r|e] w1]; simpl in Hl, Hr.
  - exists evs, [], r, w1. rewrite app_nil_r.
    split; [reflexivity|]. split; [exact Hl|]. split; [symmetry; exact Hr|].
    left. auto.
  - destruct Hr as (rest & ->). rewrite report_error_run.
    exists evs, rest, (error_response e), w1.
    split; [reflexivity|]. split; [exact Hl|]. split; [reflexivity|].
    right. exists e. auto.
Qed.

Lemma get_or_some (kvs : document) (k : string) (default v : value) :
  dict_get k kvs = Some v -> get_or kvs k default = v.
Proof. unfold get_or. intros ->. reflexivity. Qed.

Lemma dict_get_default_get_or (kvs : document) (k : string) (default : value) :
  dict_get_default (VDict kvs) k default = Ok (get_or kvs k default).
Proof. unfold get_or. simpl. destruct (dict_get k kvs); reflexivity. Qed.

Lemma traces_get_json {B} (rq : request) (data : value)
      (k : value -> M B) (plan : list event) :
  json rq = Ok data ->
  traces (k data) plan ->
  traces (bind (get_json rq) k) (EvGetJson :: plan).
Proof.
  intros Hj Hk w. unfold bind, get_json, call. rewrite Hj.
  destruct (Hk {| w_db := w_db w; w_log := w_log w ++ [EvGetJson] |})
    as (evs & Hl & Hr).
  exists (EvGetJson :: evs). split.
  - rewrite Hl. simpl. rewrite <- app_assoc. reflexivity.
  - destruct (fst (k data {| w_db := w_db w; w_log := w_log w ++ [EvGetJson] |})).
    + rewrite Hr. reflexivity.
    + destruct Hr as (rest & ->). exists rest. reflexivity.
Qed.

Lemma getitem_dict_ok (kvs : document) (k : string) (v : value) :
  getitem (VDict kvs) k = Ok v -> dict_get k kvs = Some v.
Proof. simpl. destruct (dict_get k kvs); intros [= <-]. reflexivity. Qed.

Lemma find_try_traces (rq : request) (kvs : document) :
  json rq = Ok (VDict kvs) ->
  traces (find_try py_str rq) (EvGetJson :: find_calls kvs).
Proof.
  intros Hj. unfold find_try, find_calls, get_collection.
  eapply traces_get_json; [exact Hj|].
  rewrite !dict_get_default_get_or.
  apply traces_lift; intros database Ed. apply getitem_dict_ok in Ed.
  apply traces_lift; intros coll Ec. apply getitem_dict_ok in Ec.
  rewrite (get_or_some _ _ VNone _ Ed), (get_or_some _ _ VNone _ Ec).
  apply traces_lift; intros ? [= <-].
  apply traces_lift; intros ? [= <-].
  apply traces_lift; intros ? [= <-].
  simpl app.
  apply traces_call; intros collection.
  apply traces_call; intros cursor0.
  apply traces_call; intros cursor1.
  destruct (truthy (get_or kvs "limit" VNone)); simpl app.
  - apply traces_call; intros cursor2.
    apply traces_call; intros yielded.
    apply traces_respond.
  - apply traces_ret.
    apply traces_call; intros yielded.
    apply traces_respond.
Qed.


(** **** find: defaults, order of the cursor calls, falsy limits *)

Lemma dict_get_app_other (k k' : string) (v : value) (kvs : document) :
  String.eqb k k' = false ->
  dict_get k (kvs ++ [(k', v)]) = dict_get k kvs.
Proof.
  intros Hk. induction kvs as [|[k0 v0] kvs IH]; simpl.
  - rewrite Hk. reflexivity.
  - destruct (String.eqb k k0); [reflexivity | exact IH].
Qed.

Lemma dict_get_app_absent (k : string) (v : value) (kvs : document) :
  dict_get k kvs = None ->
  dict_get k (kvs ++ [(k, v)]) = Some v.
Proof.
  induction kvs as [|[k0 v0] kvs IH]; simpl.
  - rewrite String.eqb_refl. reflexivity.
  - destruct (String.eqb k k0); [discriminate | exact IH].
Qed.

Lemma dict_get_del_same (k : string) (kvs : document) :
  dict_get k (dict_del k kvs) = None.
Proof.
  induction kvs as [|[k0 v0] kvs IH]; simpl; [reflexivity|].
  destruct (String.eqb k k0) eqn:E; [exact IH|].
  simpl. rewrite E. exact IH.
Qed.

Lemma dict_get_del_other (k k' : string) (kvs : document) :
  String.eqb k k' = false ->
  dict_get k (dict_del k' kvs) = dict_get k kvs.
Proof.
  intros Hk. induction kvs as [|[k0 v0] kvs IH]; simpl; [reflexivity|].
  destruct (String.eqb k' k0) eqn:E.
  - apply String.eqb_eq in E. subst k0. rewrite Hk. exact IH.
  - simpl. destruct (String.eqb k k0); [reflexivity | exact IH].
Qed.

(** [find] looks at five fields of the body and at nothing else; of a limit
    that is not truthy it uses nothing. *)
Lemma find_reads_five_fields (h : option string) (kvs kvs' : document) (w : world) :
  dict_get "database" kvs = dict_get "database" kvs' ->
  dict_get "collection" kvs = dict_get "collection" kvs' ->
  get_or kvs "filter" (VDict []) = get_or kvs' "filter" (VDict []) ->
  get_or kvs "skip" (VInt 0) = get_or kvs' "skip" (VInt 0) ->
  (get_or kvs "limit" VNone = get_or kvs' "limit" VNone \/
   truthy (get_or kvs "limit" VNone) = false /\
   truthy (get_or kvs' "limit" VNone) = false) ->
  find py_str (post h (VDict kvs)) w = find py_str (post h (VDict kvs')) w.
Proof.
  intros Hd Hc Hf Hs Hl.
  unfold find. change (authenticate_request (post h (VDict kvs')))
    with (authenticate_request (post h (VDict kvs))).
  destruct (authenticate_request (post h (VDict kvs))); [|reflexivity].
  cbn [negb].
  unfold try_except, find_try, bind, get_json, call, lift, post. cbn [json].
  rewrite !dict_get_default_get_or. cbn [getitem].
  rewrite <- Hd, <- Hc, <- Hf, <- Hs.
  destruct Hl as [<- | [Hl1 Hl2]]; [reflexivity|].
  rewrite Hl1, Hl2. reflexivity.
Qed.

Lemma find_calls_limit_after_skip (kvs : document) (before after : list event)
      (l : value) :
  find_calls kvs = before ++ EvLimit l :: after ->
  exists before', before = before' ++ [EvSkip (get_or kvs "skip" (VInt 0))].
Proof.
  unfold find_calls.
  destruct (truthy (get_or kvs "limit" VNone)); simpl; intros H;
    destruct before as [|e1 [|e2 [|e3 [|e4 [|e5 before]]]]]; simpl in H;
    try discriminate.
  - injection H as <- <- <- _ _. eexists [_; _]. reflexivity.
  - injection H as _ _ _ _ _ H. destruct before; discriminate.
Qed.

Lemma find_calls_no_limit (kvs : document) (l : value) :
  truthy (get_or kvs "limit" VNone) = false ->
  ~ In (EvLimit l) (find_calls kvs).
Proof.
  unfold find_calls. intros ->. simpl.
  intros [H|[H|[H|[H|[]]]]]; discriminate.
Qed.

Lemma present_fields (fields : list string) (kvs : document) (k : string) :
  first_missing fields kvs = None ->
  In k fields ->
  exists v, dict_get k kvs = Some v.
Proof.
  unfold first_missing. intros Hm Hin.
  pose proof (find_none _ _ Hm k Hin) as H. unfold dict_contains in H.
  destruct (dict_get k kvs) as [v|]; [eauto | discriminate].
Qed.

(** **** The handlers against the operations of the driver *)

Ltac driver_cases :=
  unfold ret; cbv beta iota; cbn [w_db w_log];
  repeat match goal with
         | |- context [match ?op ?d with (_, _) => _ end] =>
             match type of d with
             | db => destruct (op d) as [[?|?] ?]; cbv beta iota; cbn [w_db w_log]
             end
         end.

(** The answer and the store after an authenticated request whose body names
    a collection that the driver accepts are those of the endpoint's
    operation on that collection. *)
Lemma handler_denotes (a : action) (rq : request) (kvs : document) (w : world)
      (c : collection) (d1 : db) :
  authenticate_request rq = true ->
  json rq = Ok (VDict kvs) ->
  first_missing (required_fields a) kvs = None ->
  client_collection (get_or kvs "database" VNone)
                    (get_or kvs "collection" VNone) (w_db w) = (Ok c, d1) ->
  fst (action_handler py_str a rq w)
  = Ok (answer (fst (operation py_str a c kvs d1))) /\
  w_db (snd (action_handler py_str a rq w))
  = snd (operation py_str a c kvs d1).
Proof.
  intros Ha Hj Hm Hc.
  rewrite (allowed_run a rq w Ha).
  destruct (present_fields _ kvs "database" Hm
              ltac:(destruct a; simpl; tauto)) as [vd Ed].
  destruct (present_fields _ kvs "collection" Hm
              ltac:(destruct a; simpl; tauto)) as [vc Ec].
  rewrite (get_or_some _ _ _ _ Ed), (get_or_some _ _ _ _ Ec) in Hc.
  destruct a; cbn [action_try];
    unfold insert_one_try, insert_many_try, find_try, aggregate_try,
      update_one_try, update_many_try, delete_one_try, delete_many_try;
    unfold try_except, bind, get_json, get_collection, call, lift;
    rewrite Hj; rewrite ?dict_get_default_get_or;
    cbn [getitem w_db w_log]; rewrite ?Ed, ?Ec.
  all: repeat match goal with
              | |- context [match dict_get ?k ?m with _ => _ end] =>
                  let v := fresh "v" in
                  let E := fresh "E" in
                  destruct (present_fields _ m k Hm ltac:(simpl; tauto))
                    as [v E];
                  rewrite E; rewrite <- (get_or_some m k VNone v E)
              end.
  all: rewrite Hc; cbn [w_db w_log].
  all: unfold operation, updated_one, updated_many, deleted_one, deleted_many,
         returning, aggregated, skipped_then_limited, and_then, effective_limit.
  all: unfold get_or;
       try (destruct (dict_get "limit" _) as [l|]; [destruct (truthy l)|]);
       cbn [truthy].
  all: driver_cases.
  all: cbn [fst snd w_db w_log];
       unfold respond, bind, lift, ret, jsonify, answer, documents_of,
         documents_body;
       rewrite ?collect_map; rewrite ?report_error_run;
       repeat match goal with
              | |- context [json_safe ?v] => destruct (json_safe v)
              end;
       rewrite ?report_error_run; cbn [fst snd w_db w_log]; auto.
Qed.

Lemma find_run_traces (h : option string) (kvs : document) (w : world) :
  authenticate_request (post h (VDict kvs)) = true ->
  exists evs rest resp w',
    find py_str (post h (VDict kvs)) w = (Ok resp, w') /\
    w_log w' = w_log w ++ evs /\
    EvGetJson :: find_calls kvs = evs ++ rest /\
    (status resp = 200 -> rest = []).
Proof.
  intros Ha.
  pose proof (find_try_traces (post h (VDict kvs)) kvs eq_refl) as Ht.
  destruct (traces_try_report _ _ w Ht) as (evs & rest & resp & w' & Hr & Hl & Hp & Hk).
  pose proof (allowed_run Find _ w Ha) as Hrun.
  cbn [action_try action_handler] in Hrun. rewrite <- Hrun in Hr.
  exists evs, rest, resp, w'. split; [exact Hr|]. split; [exact Hl|].
  split; [exact Hp|].
  intros Hs. destruct Hk as [[_ Hk] | (e & _ & ->)]; [exact Hk | discriminate].
Qed.

(** C5.  An authenticated find asks the driver, in this order, for the
    collection, for a cursor on the filter (the empty filter when the body has
    none), for the skip (0 when the body has none), for the limit only when
    the body has a truthy one, and then for the documents; it stops at the
    first call that raises.  So a limit call, when there is one, comes right
    after the skip call, and a body without [limit] leads to no limit call.
    A body without [filter] (without [skip]) is treated as the same body with
    [filter: {}] (with [skip: 0]).  On the driver itself: the answer and the
    store after the request are those of [skipped_then_limited], in which
    [skip] is applied to the cursor that [find] returned for the filter (or
    [{}]) with the body's skip (or 0), [limit] is applied to the cursor that
    [skip] returned, and without a limit the skipped cursor is read as it
    is. *)
Theorem find_defaults_and_skip_before_limit :
  forall (h : option string) (kvs : document) (w : world),
    authenticate_request (post h (VDict kvs)) = true ->
    (exists evs rest resp w',
        find py_str (post h (VDict kvs)) w = (Ok resp, w') /\
        w_log w' = w_log w ++ evs /\
        EvGetJson :: find_calls kvs = evs ++ rest /\
        (status resp = 200 -> rest = []) /\
        (forall before l after,
            evs = before ++ EvLimit l :: after ->
            exists before',
              before = before' ++ [EvSkip (get_or kvs "skip" (VInt 0))]) /\
        (dict_get "limit" kvs = None -> forall l, ~ In (EvLimit l) evs))
    /\
    (dict_get "filter" kvs = None ->
     find py_str (post h (VDict kvs)) w
     = find py_str (post h (VDict (kvs ++ [("filter", VDict [])]))) w)
    /\
    (dict_get "skip" kvs = None ->
     find py_str (post h (VDict kvs)) w
     = find py_str (post h (VDict (kvs ++ [("skip", VInt 0)]))) w)
    /\
    (forall (c : collection) (d1 : db),
        first_missing (required_fields Find) kvs = None ->
        client_collection (get_or kvs "database" VNone)
                          (get_or kvs "collection" VNone) (w_db w) = (Ok c, d1) ->
        fst (find py_str (post h (VDict kvs)) w)
        = Ok (answer
                (fst (returning
                        (skipped_then_limited c
                           (get_or kvs "filter" (VDict []))
                           (get_or kvs "skip" (VInt 0))
                           (effective_limit kvs))
                        (documents_of py_str) d1)))
        /\ w_db (snd (find py_str (post h (VDict kvs)) w))
           = snd (skipped_then_limited c
                    (get_or kvs "filter" (VDict []))
                    (get_or kvs "skip" (VInt 0))
                    (effective_limit kvs) d1))
    /\
    (dict_get "limit" kvs = None -> effective_limit kvs = None).
Proof.
  intros h kvs w Ha. split; [|split; [|split; [|split]]].
  - destruct (find_run_traces h kvs w Ha) as (evs & rest & resp & w' & Hr & Hl & Hp & Hs).
    exists evs, rest, resp, w'.
    split; [exact Hr|]. split; [exact Hl|]. split; [exact Hp|].
    split; [exact Hs|]. split.
    + intros before l after ->.
      destruct before as [|e before]; simpl in Hp; [discriminate|].
      injection Hp as <- Hp. rewrite <- app_assoc in Hp. simpl in Hp.
      destruct (find_calls_limit_after_skip _ _ _ _ Hp) as (b & ->).
      exists (EvGetJson :: b). reflexivity.
    + intros Hn l Hin.
      assert (Hin' : In (EvLimit l) (EvGetJson :: find_calls kvs))
        by (rewrite Hp; apply in_or_app; left; exact Hin).
      destruct Hin' as [Hx | Hx]; [discriminate|].
      revert Hx. apply find_calls_no_limit.
      unfold get_or. rewrite Hn. reflexivity.
  - intros Hn. apply find_reads_five_fields;
      unfold get_or;
      rewrite ?dict_get_app_other by reflexivity;
      rewrite ?(dict_get_app_absent _ _ _ Hn), ?Hn; auto.
  - intros Hn. apply find_reads_five_fields;
      unfold get_or;
      rewrite ?dict_get_app_other by reflexivity;
      rewrite ?(dict_get_app_absent _ _ _ Hn), ?Hn; auto.
  - intros c d1 Hm Hc.
    destruct (handler_denotes Find (post h (VDict kvs)) kvs w c d1
                Ha eq_refl Hm Hc) as [H1 H2].
    cbn [action_handler operation] in H1, H2. split; [exact H1|].
    rewrite H2. unfold returning, and_then.
    destruct (skipped_then_limited c _ _ _ d1) as [[ys|e] d2]; reflexivity.
  - intros Hn. unfold effective_limit. rewrite Hn. reflexivity.
Qed.

(** C10.  In an authenticated find whose body has a [limit] that is not
    truthy ([0], [null], [false], an empty string, list or object), no limit
    call is made and the run is the run of the same body without [limit].  A
    truthy limit is passed to the cursor: when the answer is 200, the limit
    call is in the log. *)
Theorem falsy_limit_is_no_limit :
  forall (h : option string) (kvs : document) (l : value) (w : world),
    authenticate_request (post h (VDict kvs)) = true ->
    dict_get "limit" kvs = Some l ->
    exists evs resp w',
      find py_str (post h (VDict kvs)) w = (Ok resp, w') /\
      w_log w' = w_log w ++ evs /\
      (truthy l = false ->
       (forall l', ~ In (EvLimit l') evs) /\
       find py_str (post h (VDict kvs)) w
       = find py_str (post h (VDict (dict_del "limit" kvs))) w) /\
      (truthy l = true -> status resp = 200 -> In (EvLimit l) evs).
Proof.
  intros h kvs l w Ha Hl.
  destruct (find_run_traces h kvs w Ha) as (evs & rest & resp & w' & Hr & Hlog & Hp & Hs).
  exists evs, resp, w'. split; [exact Hr|]. split; [exact Hlog|]. split.
  - intros Hf. split.
    + intros l' Hin.
      assert (Hin' : In (EvLimit l') (EvGetJson :: find_calls kvs))
        by (rewrite Hp; apply in_or_app; left; exact Hin).
      destruct Hin' as [Hx | Hx]; [discriminate|].
      revert Hx. apply find_calls_no_limit.
      unfold get_or. rewrite Hl. exact Hf.
    + apply find_reads_five_fields;
        unfold get_or;
        rewrite ?dict_get_del_other by reflexivity; auto.
      right. rewrite Hl, dict_get_del_same. auto.
  - intros Ht H200. rewrite (Hs H200), app_nil_r in Hp. rewrite <- Hp.
    right. unfold find_calls, get_or. rewrite Hl, Ht. simpl. auto.
Qed.

End HandlerProperties.

(** *** The in-memory driver keeps the two facts assumed of a driver *)

Lemma as_documents_length (xs : list value) (ds : list document) :
  as_documents xs = Some ds -> List.length ds = List.length xs.
Proof.
  revert ds. induction xs as [|x xs IH]; intros ds; simpl.
  - intros [= <-]. reflexivity.
  - destruct x; try discriminate.
    destruct (as_documents xs) as [ds'|]; simpl; [|discriminate].
    intros [= <-]. simpl. f_equal. apply IH. reflexivity.
Qed.

Lemma with_ids_length (n : Z) (docs : list document) :
  List.length (snd (fst (with_ids n docs))) = List.length docs.
Proof.
  revert n. induction docs as [|doc docs IH]; intros n; simpl; [reflexivity|].
  destruct (with_id n doc) as [[doc1 id] n1].
  specialize (IH n1). destruct (with_ids n1 docs) as [[docs1 ids] n2].
  simpl in *. f_equal. exact IH.
Qed.

Lemma mem_one_id_per_document : one_id_per_document MemDriver.
Proof.
  intros c docs d ids d'. simpl. unfold mem_insert_many.
  destruct (as_documents docs) as [ds|] eqn:E;
    [|destruct docs; discriminate].
  destruct (match docs with [] => false | _ :: _ => true end); [|discriminate].
  pose proof (with_ids_length (next_oid d) ds) as Hl.
  destruct (with_ids (next_oid d) ds) as [[ds' ids'] n]. simpl in Hl.
  intros [= <- _]. rewrite Hl. apply as_documents_length. exact E.
Qed.

Lemma update_docs_counts (budget : nat) (f fields : document)
      (docs : list document) :
  0 <= snd (update_docs budget f fields docs)
    <= snd (fst (update_docs budget f fields docs)).
Proof.
  revert budget. induction docs as [|doc docs IH]; intros budget; simpl.
  - lia.
  - destruct budget as [|budget']; simpl; [lia|].
    destruct (matches f doc).
    + specialize (IH budget').
      destruct (update_docs budget' f fields docs) as [[rest m] k].
      cbn [fst snd] in *.
      match goal with |- context [if ?b then _ else _] => destruct b end; lia.
    + specialize (IH (S budget')).
      destruct (update_docs (S budget') f fields docs) as [[rest m] k].
      simpl in *. lia.
Qed.

Lemma mem_no_match_no_change : no_match_no_change MemDriver.
Proof.
  intros c f u d r d'. simpl. unfold mem_update.
  destruct f as [| | | | |f|]; try discriminate.
  destruct (set_fields u) as [fields|]; [|discriminate].
  pose proof (update_docs_counts (one (colls_get c (colls d))) f fields
                (colls_get c (colls d))) as Hc.
  destruct (update_docs _ f fields _) as [[docs' m] k]. simpl in Hc.
  intros [= <- _]. simpl. intros ->. split; [lia | reflexivity].
Qed.

(** *** Runs on the two drivers *)

Lemma allowed_header_witness :
  authenticate_header GOOD_HEADER = true <-> decodes_to_credentials GOOD_HEADER.
Proof.
  exact (proj1 (authenticate_allows_exactly_decoded_credentials GOOD_HEADER)).
Defined.

Lemma denied_request_witness :
  authenticate_request (post None (in_coll [("document", item 1)])) = false /\
  exists w',
    @action_handler MemDriver mem_str InsertOne
      (post None (in_coll [("document", item 1)])) five_items
    = (Ok {| body := VDict [("error", VStr "Unauthorized")]; status := 401 |}, w')
    /\ w_db w' = w_db five_items
    /\ filter is_db_event (w_log w') = filter is_db_event (w_log five_items).
Proof.
  split; [reflexivity|].
  apply (@denied_request_gets_401_and_no_database_call MemDriver mem_str
           InsertOne (post None (in_coll [("document", item 1)])) five_items).
  reflexivity.
Defined.

Lemma wrong_password_garbage_body_witness :
  authenticate_request (post_garbage (Some WRONG_PASSWORD_HEADER)) = false /\
  exists resp w',
    @action_handler MemDriver mem_str Find
      (post_garbage (Some WRONG_PASSWORD_HEADER)) five_items = (Ok resp, w')
    /\ status resp = 401
    /\ w_log w' = w_log five_items.
Proof.
  split; [vm_compute; reflexivity|].
  apply (@denied_request_body_is_not_read MemDriver mem_str Find
           (Some WRONG_PASSWORD_HEADER)
           (json (post_garbage (Some WRONG_PASSWORD_HEADER))) five_items).
  vm_compute. reflexivity.
Defined.

Lemma missing_document_witness :
  authenticate_request (authed []) = true /\
  @action_handler MemDriver mem_str InsertOne (authed []) fresh
  = (Ok {| body := VDict [("error", VStr "'document'")]; status := 500 |},
     {| w_db := w_db fresh; w_log := w_log fresh ++ [EvGetJson] |}).
Proof.
  split; [vm_compute; reflexivity|].
  apply (proj2 (@authenticated_action_answers_200_or_500 MemDriver mem_str
                  InsertOne (authed []) fresh
                  ltac:(vm_compute; reflexivity))
               [("database", VStr "test_db"); ("collection", VStr "items")]
               "document"); reflexivity.
Defined.

(** C3, as stated, fails: the text of an exception may be empty, and it is
    passed on as it is. *)
Lemma silent_exception_gives_empty_message :
  authenticate_request (authed [("document", item 1)]) = true /\
  fst (@action_handler (FailingDriver SILENT) mem_str InsertOne
         (authed [("document", item 1)]) (unreachable SILENT))
  = Ok {| body := VDict [("error", VStr "")]; status := 500 |} /\
  ~ (exists resp msg,
        fst (@action_handler (FailingDriver SILENT) mem_str InsertOne
               (authed [("document", item 1)]) (unreachable SILENT)) = Ok resp /\
        body resp = VDict [("error", VStr msg)] /\
        msg <> "").
Proof.
  split; [vm_compute; reflexivity|]. split; [vm_compute; reflexivity|].
  intros (resp & msg & Hr & Hb & Hm).
  vm_compute in Hr. injection Hr as <-. simpl in Hb. injection Hb as <-.
  apply Hm. reflexivity.
Defined.

Lemma stored_ids_witness :
  exists resp w',
    @action_handler MemDriver mem_str Find (authed []) five_items = (Ok resp, w') /\
    json_safe (body resp) = true.
Proof.
  destruct (proj1 (@responses_carry_no_native_identifier MemDriver mem_str
                     Find (authed []) five_items))
    as (resp & w' & Hr & Hs & _).
  exists resp, w'. split; [exact Hr | exact Hs].
Defined.

Lemma find_third_of_five_witness :
  authenticate_request (authed [("skip", VInt 2); ("limit", VInt 1)]) = true /\
  first_missing (required_fields Find)
    [("database", VStr "test_db"); ("collection", VStr "items");
     ("skip", VInt 2); ("limit", VInt 1)] = None /\
  fst (@find MemDriver mem_str (authed [("skip", VInt 2); ("limit", VInt 1)])
         five_items)
  = Ok (answer
          (fst (returning
                  (@skipped_then_limited MemDriver ("test_db", "items")
                     (VDict []) (VInt 2) (Some (VInt 1)))
                  (documents_of mem_str) (w_db five_items)))) /\
  fst (@skipped_then_limited MemDriver ("test_db", "items")
         (VDict []) (VInt 2) (Some (VInt 1)) (w_db five_items))
  = Ok [[("_id", VObjectId (oid_bytes 3)); ("n", VInt 3)]].
Proof.
  split; [vm_compute; reflexivity|]. split; [reflexivity|].
  split; [|vm_compute; reflexivity].
  apply (proj1 (proj2 (proj2 (proj2
           (@find_defaults_and_skip_before_limit MemDriver mem_str
              (Some GOOD_HEADER)
              [("database", VStr "test_db"); ("collection", VStr "items");
               ("skip", VInt 2); ("limit", VInt 1)]
              five_items ltac:(vm_compute; reflexivity)))))
           ("test_db", "items") (w_db five_items) eq_refl eq_refl).
Defined.

Lemma insert_five_witness :
  one_id_per_document MemDriver /\
  status five_ids_response = 200 /\
  @insert_many MemDriver mem_str insert_five fresh = (Ok five_ids_response, five_items) /\
  exists ids : list string,
    body five_ids_response
    = VDict [("insertedIds", VList (map VStr ids)); ("insertedCount", VInt 5)]
    /\ List.length ids = 5%nat.
Proof.
  split; [exact mem_one_id_per_document|].
  split; [reflexivity|].
  split; [vm_compute; reflexivity|].
  apply (proj1 (@insert_responses_count_the_documents MemDriver mem_str
                  mem_one_id_per_document insert_five fresh five_items
                  five_ids_response eq_refl)
               ltac:(vm_compute; reflexivity)
               (in_coll [("documents", VList [item 1; item 2; item 3; item 4; item 5])])
               [item 1; item 2; item 3; item 4; item 5]);
    reflexivity.
Defined.

Lemma nothing_matched_witness :
  no_match_no_change MemDriver /\
  fst (@update_one MemDriver mem_str
         (authed [("filter", VDict [("n", VInt 99)]); ("update", set_x)])
         five_items)
  = Ok nothing_matched_response /\
  exists (kvs : document) (c : @collection MemDriver) (d1 : @db MemDriver)
         (r : update_result) (u : value),
    json (authed [("filter", VDict [("n", VInt 99)]); ("update", set_x)])
    = Ok (VDict kvs) /\
    @client_collection MemDriver (get_or kvs "database" VNone)
      (get_or kvs "collection" VNone) (w_db five_items) = (Ok c, d1) /\
    @coll_update_one MemDriver c (get_or kvs "filter" (VDict []))
      (get_or kvs "update" VNone) d1
    = (Ok r,
       w_db (snd (@update_one MemDriver mem_str
                    (authed [("filter", VDict [("n", VInt 99)]); ("update", set_x)])
                    five_items))) /\
    body nothing_matched_response
    = VDict [("matchedCount", VInt (matched_count r));
             ("modifiedCount", VInt (modified_count r)); ("upsertedId", u)]
    /\ (u = VNone \/ u = VStr (mem_str (upserted_id r)))
    /\ (matched_count r = 0 ->
        body nothing_matched_response
        = VDict [("matchedCount", VInt 0); ("modifiedCount", VInt 0);
                 ("upsertedId", VNone)]).
Proof.
  split; [exact mem_no_match_no_change|].
  split; [vm_compute; reflexivity|].
  apply (@update_one_response_shape MemDriver mem_str mem_no_match_no_change
           (authed [("filter", VDict [("n", VInt 99)]); ("update", set_x)])
           five_items
           (snd (@update_one MemDriver mem_str
                   (authed [("filter", VDict [("n", VInt 99)]); ("update", set_x)])
                   five_items))
           nothing_matched_response).
  - vm_compute. reflexivity.
  - reflexivity.
Defined.

Lemma limit_zero_witness :
  authenticate_request (authed [("limit", VInt 0)]) = true /\
  dict_get "limit" [("database", VStr "test_db"); ("collection", VStr "items");
                    ("limit", VInt 0)] = Some (VInt 0) /\
  exists evs resp w',
    @find MemDriver mem_str (authed [("limit", VInt 0)]) five_items = (Ok resp, w') /\
    w_log w' = w_log five_items ++ evs /\
    (truthy (VInt 0) = false ->
     (forall l', ~ In (EvLimit l') evs) /\
     @find MemDriver mem_str (authed [("limit", VInt 0)]) five_items
     = @find MemDriver mem_str
         (post (Some GOOD_HEADER)
               (VDict (dict_del "limit"
                         [("database", VStr "test_db"); ("collection", VStr "items");
                          ("limit", VInt 0)])))
         five_items) /\
    (truthy (VInt 0) = true -> status resp = 200 -> In (EvLimit (VInt 0)) evs).
Proof.
  split; [vm_compute; reflexivity|]. split; [reflexivity|].
  apply (@falsy_limit_is_no_limit MemDriver mem_str (Some GOOD_HEADER)
           [("database", VStr "test_db"); ("collection", VStr "items");
            ("limit", VInt 0)]
           (VInt 0) five_items).
  - vm_compute. reflexivity.
  - reflexivity.
Defined.

(** The ways of writing a limit that is no limit. *)
Example falsy_limits :
  truthy (VInt 0) = false /\ truthy VNone = false /\ truthy (VBool false) = false /\
  truthy (VStr "") = false /\ truthy (VList []) = false /\ truthy (VDict []) = false /\
  truthy (VInt 1) = true /\ truthy (VInt (-1)) = true.
Proof. repeat split. Qed.

(** Five documents in the store: with [skip: 2, limit: 1] the third one comes
    back; with [limit: 0], all five; without a body field at all, all five. *)
Example find_third_of_five :
  fst (@find MemDriver mem_str (authed [("skip", VInt 2); ("limit", VInt 1)]) five_items)
  = Ok {| body := VDict [("documents",
                          VList [VDict [("_id", VStr "000000000000000000000003");
                                        ("n", VInt 3)]])];
          status := 200 |}.
Proof. vm_compute. reflexivity. Qed.

Example find_limit_zero_is_find_all :
  fst (@find MemDriver mem_str (authed [("limit", VInt 0)]) five_items)
  = fst (@find MemDriver mem_str (authed []) five_items)
  /\ w_log (snd (@find MemDriver mem_str (authed [("limit", VInt 0)]) five_items))
     = w_log five_items
       ++ [EvGetJson; EvCollection (VStr "test_db") (VStr "items");
           EvFind (VDict []); EvSkip (VInt 0); EvIterate]
  /\ w_log (snd (@find MemDriver mem_str (authed [("skip", VInt 2); ("limit", VInt 1)])
                   five_items))
     = w_log five_items
       ++ [EvGetJson; EvCollection (VStr "test_db") (VStr "items");
           EvFind (VDict []); EvSkip (VInt 2); EvLimit (VInt 1); EvIterate].
Proof. vm_compute. repeat split. Qed.

(** A stored document with an [ObjectId] outside [_id] cannot be encoded: the
    answer is the 500 of the [except] clause. *)
Example reference_field_gives_500 :
  fst (@find MemDriver mem_str (authed [])
         (snd (@insert_one MemDriver mem_str
                 (authed [("document", VDict [("owner", VObjectId (oid_bytes 7))])])
                 fresh)))
  = Ok {| body := VDict [("error",
                          VStr "Object of type ObjectId is not JSON serializable")];
          status := 500 |}.
Proof. vm_compute. reflexivity. Qed.

Example health_on_both_drivers :
  fst (@health MemDriver (post None VNone) fresh)
  = Ok {| body := VDict [("status", VStr "healthy");
                         ("message", VStr "DocumentDB API server is running")];
          status := 200 |}
  /\ fst (@health (FailingDriver (Raised "ServerSelectionTimeoutError" "mongodb:27017: timed out"))
            (post None VNone) (unreachable _))
     = Ok {| body := VDict [("status", VStr "unhealthy");
                            ("error", VStr "mongodb:27017: timed out")];
             status := 500 |}.
Proof. vm_compute. split; reflexivity. Qed.

(** ** Part III. Further properties *)

(** *** Base64: decoding what the encoder wrote *)

Lemma below_In (n : nat) (x : Z) : 0 <= x < Z.of_nat n -> In x (below n).
Proof.
  intros H. unfold below. apply in_map_iff. exists (Z.to_nat x). split.
  - apply Z2Nat.id. lia.
  - apply in_seq. lia.
Qed.

Lemma below_forall (n : nat) (f : Z -> bool) :
  forallb f (below n) = true -> forall x, 0 <= x < Z.of_nat n -> f x = true.
Proof.
  intros H x Hx. rewrite forallb_forall in H. apply H. apply below_In. exact Hx.
Qed.

Lemma digit_round_trip (d : Z) :
  0 <= d < 64 ->
  table_a2b_base64 (table_b2a_base64 d) = Some d.
Proof.
  intros Hd.
  assert (H : forallb (fun d => match table_a2b_base64 (table_b2a_base64 d) with
                                | Some d' => d' =? d
                                | None => false
                                end) (below 64) = true)
    by (vm_compute; reflexivity).
  pose proof (below_forall 64 _ H d Hd) as Hx. cbv beta in Hx.
  destruct (table_a2b_base64 (table_b2a_base64 d)); [|discriminate].
  apply Z.eqb_eq in Hx. congruence.
Qed.

Lemma digit_is_not_pad (d : Z) :
  0 <= d < 64 -> (table_b2a_base64 d =? BASE64_PAD) = false.
Proof.
  intros Hd. apply negb_true_iff.
  exact (below_forall 64 (fun d => negb (table_b2a_base64 d =? BASE64_PAD))
           ltac:(vm_compute; reflexivity) d Hd).
Qed.

Lemma digit_is_ascii (d : Z) : 0 <= d < 64 -> is_ascii (table_b2a_base64 d).
Proof.
  intros Hd.
  pose proof (below_forall 64
                (fun d => (0 <=? table_b2a_base64 d) && (table_b2a_base64 d <? 128))
                ltac:(vm_compute; reflexivity) d Hd) as H.
  cbv beta in H. apply andb_true_iff in H. destruct H as [H1 H2].
  apply Z.leb_le in H1. apply Z.ltb_lt in H2. split; assumption.
Qed.

(** A fact about one or two bytes, checked on all of them. *)
Ltac check_bytes1 a Ha :=
  match goal with
  | |- ?e = true =>
      let f := eval pattern a in e in
      match f with
      | ?g a => exact (below_forall 256 g ltac:(vm_compute; reflexivity) a Ha)
      end
  end.

Ltac check_bytes2 a b Ha Hb :=
  match goal with
  | |- ?e = true =>
      let f := eval pattern a, b in e in
      match f with
      | ?g a b =>
          exact (below_forall 256 (fun y => g a y)
                   (below_forall 256 (fun x => forallb (g x) (below 256))
                      ltac:(vm_compute; reflexivity) a Ha) b Hb)
      end
  end.

Lemma in_digits (e : Z) : (0 <=? e) && (e <? 64) = true -> 0 <= e < 64.
Proof.
  intros H. apply andb_true_iff in H. destruct H as [H1 H2].
  apply Z.leb_le in H1. apply Z.ltb_lt in H2. lia.
Qed.

Section Quad.

Variables a b c : Z.
Hypothesis Ha : is_byte a.
Hypothesis Hb : is_byte b.
Hypothesis Hc : is_byte c.

(** The four digits of three bytes, and the digits of a last group of one or
    two bytes, are digits. *)
Lemma digit0_range : 0 <= Z.shiftr a 2 < 64.
Proof. apply in_digits. check_bytes1 a Ha. Qed.

Lemma digit1_range :
  0 <= Z.lor (Z.shiftl (Z.land a 3) 4) (Z.shiftr b 4) < 64.
Proof. apply in_digits. check_bytes2 a b Ha Hb. Qed.

Lemma digit1_last_range : 0 <= Z.shiftl (Z.land a 3) 4 < 64.
Proof. apply in_digits. check_bytes1 a Ha. Qed.

Lemma digit2_range :
  0 <= Z.lor (Z.shiftl (Z.land b 15) 2) (Z.shiftr c 6) < 64.
Proof. apply in_digits. check_bytes2 b c Hb Hc. Qed.

Lemma digit2_last_range : 0 <= Z.shiftl (Z.land b 15) 2 < 64.
Proof. apply in_digits. check_bytes1 b Hb. Qed.

Lemma digit3_range : 0 <= Z.land c 63 < 64.
Proof. apply in_digits. check_bytes1 c Hc. Qed.

(** What the decoder rebuilds from them. *)
Lemma byte0_back :
  u8 (Z.lor (Z.shiftl (Z.shiftr a 2) 2)
            (Z.shiftr (Z.lor (Z.shiftl (Z.land a 3) 4) (Z.shiftr b 4)) 4)) = a.
Proof. apply Z.eqb_eq. check_bytes2 a b Ha Hb. Qed.

Lemma byte0_last_back :
  u8 (Z.lor (Z.shiftl (Z.shiftr a 2) 2)
            (Z.shiftr (Z.shiftl (Z.land a 3) 4) 4)) = a.
Proof. apply Z.eqb_eq. check_bytes1 a Ha. Qed.

Lemma left1 :
  Z.land (Z.lor (Z.shiftl (Z.land a 3) 4) (Z.shiftr b 4)) 15 = Z.shiftr b 4.
Proof. apply Z.eqb_eq. check_bytes2 a b Ha Hb. Qed.

Lemma byte1_back :
  u8 (Z.lor (Z.shiftl (Z.shiftr b 4) 4)
            (Z.shiftr (Z.lor (Z.shiftl (Z.land b 15) 2) (Z.shiftr c 6)) 2)) = b.
Proof. apply Z.eqb_eq. check_bytes2 b c Hb Hc. Qed.

Lemma byte1_last_back :
  u8 (Z.lor (Z.shiftl (Z.shiftr b 4) 4)
            (Z.shiftr (Z.shiftl (Z.land b 15) 2) 2)) = b.
Proof. apply Z.eqb_eq. check_bytes1 b Hb. Qed.

Lemma left2 :
  Z.land (Z.lor (Z.shiftl (Z.land b 15) 2) (Z.shiftr c 6)) 3 = Z.shiftr c 6.
Proof. apply Z.eqb_eq. check_bytes2 b c Hb Hc. Qed.

Lemma byte2_back :
  u8 (Z.lor (Z.shiftl (Z.shiftr c 6) 6) (Z.land c 63)) = c.
Proof. apply Z.eqb_eq. check_bytes1 c Hc. Qed.

End Quad.

(** One step of the decoder on a digit, at each position in the quad. *)
Lemma a2b_digit_at_0 (l p d : Z) (rest : list Z) :
  0 <= d < 64 ->
  a2b_base64 0 l p (table_b2a_base64 d :: rest) = a2b_base64 1 d 0 rest.
Proof.
  intros Hd. cbn [a2b_base64].
  rewrite (digit_is_not_pad d Hd), (digit_round_trip d Hd). reflexivity.
Qed.

Lemma a2b_digit_at_1 (l p d : Z) (rest : list Z) :
  0 <= d < 64 ->
  a2b_base64 1 l p (table_b2a_base64 d :: rest)
  = option_map (cons (u8 (Z.lor (Z.shiftl l 2) (Z.shiftr d 4))))
               (a2b_base64 2 (Z.land d 15) 0 rest).
Proof.
  intros Hd. cbn [a2b_base64].
  rewrite (digit_is_not_pad d Hd), (digit_round_trip d Hd). reflexivity.
Qed.

Lemma a2b_digit_at_2 (l p d : Z) (rest : list Z) :
  0 <= d < 64 ->
  a2b_base64 2 l p (table_b2a_base64 d :: rest)
  = option_map (cons (u8 (Z.lor (Z.shiftl l 4) (Z.shiftr d 2))))
               (a2b_base64 3 (Z.land d 3) 0 rest).
Proof.
  intros Hd. cbn [a2b_base64].
  rewrite (digit_is_not_pad d Hd), (digit_round_trip d Hd). reflexivity.
Qed.

Lemma a2b_digit_at_3 (l p d : Z) (rest : list Z) :
  0 <= d < 64 ->
  a2b_base64 3 l p (table_b2a_base64 d :: rest)
  = option_map (cons (u8 (Z.lor (Z.shiftl l 6) d))) (a2b_base64 0 0 0 rest).
Proof.
  intros Hd. cbn [a2b_base64].
  rewrite (digit_is_not_pad d Hd), (digit_round_trip d Hd). reflexivity.
Qed.

(** The decoder gives back the bytes that the encoder was given. *)
Lemma a2b_b2a_base64 (bs : list Z) :
  Forall is_byte bs -> a2b_base64 0 0 0 (b2a_base64 bs) = Some bs.
Proof.
  assert (G : forall (n : nat) (xs : list Z),
             (List.length xs <= n)%nat ->
             Forall is_byte xs -> a2b_base64 0 0 0 (b2a_base64 xs) = Some xs).
  { clear bs. induction n as [|n IH]; intros bs Hn Hbs.
    - destruct bs; [reflexivity | simpl in Hn; lia].
    - destruct bs as [|a [|b [|c rest]]].
      + reflexivity.
      + inversion Hbs as [|? ? Ha _]; subst.
        cbn [b2a_base64].
        rewrite a2b_digit_at_0 by (apply digit0_range; exact Ha).
        rewrite a2b_digit_at_1 by (apply digit1_last_range; exact Ha).
        rewrite (byte0_last_back a Ha). reflexivity.
      + inversion Hbs as [|? ? Ha Hbs1]; subst.
        inversion Hbs1 as [|? ? Hb _]; subst.
        cbn [b2a_base64].
        rewrite a2b_digit_at_0 by (apply digit0_range; exact Ha).
        rewrite a2b_digit_at_1 by (apply digit1_range; assumption).
        rewrite (left1 a b Ha Hb).
        rewrite a2b_digit_at_2 by (apply digit2_last_range; exact Hb).
        rewrite (byte0_back a b Ha Hb), (byte1_last_back b Hb). reflexivity.
      + inversion Hbs as [|? ? Ha Hbs1]; subst.
        inversion Hbs1 as [|? ? Hb Hbs2]; subst.
        inversion Hbs2 as [|? ? Hc Hrest]; subst.
        cbn [b2a_base64].
        rewrite a2b_digit_at_0 by (apply digit0_range; exact Ha).
        rewrite a2b_digit_at_1 by (apply digit1_range; assumption).
        rewrite (left1 a b Ha Hb).
        rewrite a2b_digit_at_2 by (apply digit2_range; assumption).
        rewrite (left2 b c Hb Hc).
        rewrite a2b_digit_at_3 by (apply digit3_range; exact Hc).
        rewrite (byte0_back a b Ha Hb), (byte1_back b c Hb Hc), (byte2_back c Hc).
        rewrite (IH rest) by (simpl in Hn; lia || exact Hrest).
        reflexivity. }
  intros H. exact (G (List.length bs) bs (le_n _) H).
Qed.

Lemma b2a_base64_is_ascii (bs : list Z) :
  Forall is_byte bs -> Forall is_ascii (b2a_base64 bs).
Proof.
  assert (Hpad : is_ascii BASE64_PAD) by (unfold is_ascii, BASE64_PAD; lia).
  assert (G : forall (n : nat) (xs : list Z),
             (List.length xs <= n)%nat ->
             Forall is_byte xs -> Forall is_ascii (b2a_base64 xs)).
  { clear bs. induction n as [|n IH]; intros bs Hn Hbs.
    - destruct bs; [constructor | simpl in Hn; lia].
    - destruct bs as [|a [|b [|c rest]]];
        repeat match goal with
               | H : Forall is_byte (_ :: _) |- _ =>
                   apply Forall_cons_iff in H; destruct H as [? H]
               end;
        cbn [b2a_base64];
        repeat (apply Forall_cons;
                [first [ exact Hpad
                       | apply digit_is_ascii;
                         first [ apply digit0_range | apply digit1_range
                               | apply digit1_last_range | apply digit2_range
                               | apply digit2_last_range | apply digit3_range ];
                         assumption ]|]);
        try apply Forall_nil.
      apply IH; [simpl in Hn; lia | assumption]. }
  intros H. exact (G (List.length bs) bs (le_n _) H).
Qed.

Lemma ord_chr (c : Z) : 0 <= c < 256 -> ord (chr c) = c.
Proof.
  intros H. unfold ord, chr. rewrite N_ascii_embedding by lia. lia.
Qed.

Lemma codepoints_of_chars (cs : list Z) :
  Forall is_ascii cs ->
  codepoints (string_of_list_ascii (map chr cs)) = cs.
Proof.
  intros H. unfold codepoints. rewrite list_ascii_of_string_of_list_ascii.
  rewrite map_map. induction H as [|c cs Hc _ IH]; simpl; [reflexivity|].
  rewrite ord_chr by (unfold is_ascii in Hc; lia). f_equal. exact IH.
Qed.

Lemma encode_ascii_of_chars (cs : list Z) :
  Forall is_ascii cs ->
  encode_ascii (string_of_list_ascii (map chr cs)) = Some cs.
Proof.
  intros H. unfold encode_ascii. rewrite (codepoints_of_chars cs H).
  assert (Hall : forallb (fun c => c <? 128) cs = true).
  { apply forallb_forall. intros c Hin. rewrite Forall_forall in H.
    apply Z.ltb_lt. apply (H c Hin). }
  rewrite Hall. reflexivity.
Qed.

Lemma b64decode_b64encode (bs : list Z) :
  Forall is_byte bs -> b64decode (b64encode bs) = Some bs.
Proof.
  intros H. unfold b64decode, b64encode.
  rewrite (encode_ascii_of_chars _ (b2a_base64_is_ascii bs H)).
  apply a2b_b2a_base64. exact H.
Qed.

(** ASCII bytes are their own UTF-8 text. *)
Lemma utf8_decode_ascii (cs : list Z) :
  Forall is_ascii cs -> utf8_decode cs = Some cs.
Proof.
  induction 1 as [|c cs Hc _ IH]; [reflexivity|].
  cbn [utf8_decode]. unfold in_range.
  destruct Hc as [H0 H1].
  rewrite (proj2 (Z.leb_le 0 c) H0), (proj2 (Z.leb_le c 127)) by lia.
  rewrite IH. reflexivity.
Qed.

Lemma is_ascii_is_byte (cs : list Z) : Forall is_ascii cs -> Forall is_byte cs.
Proof.
  apply Forall_impl. unfold is_ascii, is_byte. intros c H. lia.
Qed.

(** *** Authentication: which text is accepted *)

Lemma codepoints_credentials :
  codepoints USERNAME ++ COLON :: codepoints PASSWORD
  = codepoints "testuser:testpass".
Proof. reflexivity. Qed.

Lemma accepted_text (payload : string) (raw text : list Z) :
  b64decode payload = Some raw ->
  utf8_decode raw = Some text ->
  (authenticate_header ("Basic " ++ payload) = true
   <-> text = codepoints "testuser:testpass").
Proof.
  intros Hb Hu. unfold authenticate_header.
  rewrite (startswith_prefix "Basic " payload). cbn [negb].
  unfold check_credentials.
  change (slice_from 6 ("Basic " ++ payload)) with payload.
  rewrite Hb, Hu.
  destruct (unpack2 (split1 COLON text)) as [[u p]|] eqn:Es.
  - apply unpack2_split1 in Es. destruct Es as [-> Hn]. split.
    + intros H. apply andb_true_iff in H. destruct H as [H1 H2].
      apply cps_eqb_eq in H1. apply cps_eqb_eq in H2. subst u p.
      apply codepoints_credentials.
    + intros H. rewrite <- codepoints_credentials in H.
      assert (Hs : unpack2 (split1 COLON (u ++ COLON :: p)) = Some (u, p))
        by (apply unpack2_split1; auto).
      rewrite H in Hs.
      assert (Hs' : unpack2 (split1 COLON
                      (codepoints USERNAME ++ COLON :: codepoints PASSWORD))
                    = Some (codepoints USERNAME, codepoints PASSWORD))
        by reflexivity.
      rewrite Hs' in Hs. injection Hs as <- <-. reflexivity.
  - split; [discriminate|]. intros ->. discriminate.
Qed.

Lemma first_separator (sep : Z) (user pass u p : list Z) :
  ~ In sep u -> ~ In sep p ->
  user ++ sep :: pass = u ++ sep :: p ->
  user = u /\ pass = p.
Proof.
  revert u. induction user as [|c user IH]; intros u Hu Hp H.
  - destruct u as [|x u]; simpl in H.
    + injection H as ->. auto.
    + injection H as <- _. exfalso. apply Hu. left. reflexivity.
  - destruct u as [|x u]; simpl in H.
    + injection H as -> H. exfalso. apply Hp. rewrite <- H.
      apply in_elt.
    + injection H as -> H.
      destruct (IH u) as [-> ->]; auto.
      intros Hin. apply Hu. right. exact Hin.
Qed.

Lemma no_colon_in_credentials :
  ~ In COLON (codepoints USERNAME) /\ ~ In COLON (codepoints PASSWORD).
Proof.
  split; intros H; vm_compute in H;
    repeat (destruct H as [H|H]; [discriminate|]); exact H.
Qed.

(** X1.  Of all the texts that a payload may decode to, exactly one is
    accepted: [testuser:testpass].  In particular a password followed by
    anything else, or a different case, is refused. *)
Theorem only_one_text_is_accepted :
  forall (payload : string) (raw text : list Z),
    b64decode payload = Some raw ->
    utf8_decode raw = Some text ->
    (authenticate_header ("Basic " ++ payload) = true
     <-> text = codepoints "testuser:testpass").
Proof. exact accepted_text. Qed.

(** X2.  A client that follows the scheme (the base64 encoding, padded, of
    user name, colon, password, all ASCII) is allowed exactly when its user
    name and its password are the configured ones. *)
Theorem standard_client_is_judged_by_its_credentials :
  forall user pass : list Z,
    Forall is_ascii user ->
    Forall is_ascii pass ->
    (authenticate_header (basic_header user pass) = true
     <-> user = codepoints USERNAME /\ pass = codepoints PASSWORD).
Proof.
  intros user pass Hu Hp.
  assert (Ht : Forall is_ascii (userpass user pass)).
  { unfold userpass. apply Forall_app. split; [exact Hu|].
    constructor; [unfold is_ascii, COLON; lia | exact Hp]. }
  unfold basic_header.
  rewrite (accepted_text _ _ _
             (b64decode_b64encode _ (is_ascii_is_byte _ Ht))
             (utf8_decode_ascii _ Ht)).
  rewrite <- codepoints_credentials. unfold userpass. split.
  - intros H. destruct no_colon_in_credentials as [Hcu Hcp].
    exact (first_separator COLON user pass _ _ Hcu Hcp H).
  - intros [-> ->]. reflexivity.
Qed.

(** *** The handlers: what is answered, and after which calls *)

Section FurtherHandlerProperties.

Context {D : Driver}.
Variable py_str : value -> string.

Ltac unfold_tries :=
  cbn [action_try];
  unfold insert_one_try, insert_many_try, find_try, aggregate_try,
    update_one_try, update_many_try, delete_one_try, delete_many_try.

(** X3.  A handler never lets an exception out and answers with one of three
    statuses; it answers 401 exactly to the requests that the authenticator
    denies, so that an authenticated request never gets 401. *)
Theorem handler_answers_401_exactly_when_denied :
  forall (a : action) (rq : request) (w : world),
    exists resp w',
      action_handler py_str a rq w = (Ok resp, w') /\
      (status resp = 401 <-> authenticate_request rq = false) /\
      (status resp = 200 \/ status resp = 401 \/ status resp = 500).
Proof.
  intros a rq w. destruct (authenticate_request rq) eqn:Ha.
  - rewrite (allowed_run py_str a rq w Ha).
    destruct (try_report (action_try py_str a rq) w) as (resp & w' & Ht & Hc).
    exists resp, w'. split; [exact Ht|].
    destruct Hc as [Hok | (e & _ & ->)].
    + destruct (action_try_ok py_str a rq w resp w' Hok) as [Hs _].
      rewrite Hs. split; [split; discriminate | auto].
    + simpl. split; [split; discriminate | auto].
  - rewrite (denied_run py_str a rq w Ha).
    exists unauthorized_response, w. simpl. split; [reflexivity|].
    split; [split; reflexivity | auto].
Qed.

Lemma unparsable_run (a : action) (rq : request) (w : world) (e : exn) :
  authenticate_request rq = true ->
  json rq = Raise e ->
  action_handler py_str a rq w
  = (Ok (error_response e),
     {| w_db := w_db w; w_log := w_log w ++ [EvGetJson] |}).
Proof.
  intros Ha Hj. rewrite (allowed_run py_str a rq w Ha).
  destruct a; unfold_tries;
    unfold try_except, bind, get_json, call; rewrite Hj;
    apply report_error_run.
Qed.

Lemma not_object_run (a : action) (rq : request) (w : world) (data : value) :
  authenticate_request rq = true ->
  json rq = Ok data ->
  (forall kvs, data <> VDict kvs) ->
  exists msg,
    getitem data "database" = Raise (TypeError msg) /\
    msg <> "" /\
    action_handler py_str a rq w
    = (Ok (error_response (TypeError msg)),
       {| w_db := w_db w; w_log := w_log w ++ [EvGetJson] |}).
Proof.
  intros Ha Hj Hn. rewrite (allowed_run py_str a rq w Ha).
  destruct data as [| | | | |kvs|];
    try (exfalso; apply (Hn kvs); reflexivity);
    (eexists; split; [reflexivity|]; split; [discriminate|]);
    destruct a; unfold_tries;
    unfold try_except, bind, get_json, call, lift; rewrite Hj;
    apply report_error_run.
Qed.

(** X4.  A body that [get_json] cannot parse: the answer is 500 with the
    text of the parser's exception, and nothing is asked of the driver. *)
Theorem unparsable_body_gets_500 :
  forall (a : action) (rq : request) (w : world) (e : exn),
    authenticate_request rq = true ->
    json rq = Raise e ->
    action_handler py_str a rq w
    = (Ok {| body := VDict [("error", VStr (str_exn e))]; status := 500 |},
       {| w_db := w_db w; w_log := w_log w ++ [EvGetJson] |}).
Proof. exact unparsable_run. Qed.

(** X5.  A body that is JSON but not an object (a list, a string, a number,
    [null]): the first subscript raises [TypeError]; the answer is 500 with
    its text, which is not empty, and nothing is asked of the driver. *)
Theorem body_that_is_not_an_object_gets_500 :
  forall (a : action) (rq : request) (w : world) (data : value),
    authenticate_request rq = true ->
    json rq = Ok data ->
    (forall kvs, data <> VDict kvs) ->
    exists msg,
      getitem data "database" = Raise (TypeError msg) /\
      msg <> "" /\
      action_handler py_str a rq w
      = (Ok {| body := VDict [("error", VStr msg)]; status := 500 |},
         {| w_db := w_db w; w_log := w_log w ++ [EvGetJson] |}).
Proof. exact not_object_run. Qed.


Ltac traces_steps :=
  repeat match goal with
         | |- traces (bind (lift (getitem (VDict _) _)) _) _ =>
             let E := fresh "E" in
             apply traces_lift; intros ? E; apply getitem_dict_ok in E;
             rewrite ?(get_or_some _ _ VNone _ E)
         | |- traces (bind (lift (Ok _)) _) _ =>
             apply traces_lift; intros ? [= <-]
         | |- traces (bind (call _ _) _) (_ :: _) =>
             apply traces_call; intros ?
         | |- traces (respond _ _) [] => apply traces_respond
         end.

Lemma action_try_traces (a : action) (rq : request) (kvs : document) :
  json rq = Ok (VDict kvs) ->
  traces (action_try py_str a rq) (EvGetJson :: action_calls a kvs).
Proof.
  intros Hj. destruct a; try exact (find_try_traces py_str rq kvs Hj);
    unfold_tries; unfold action_calls, get_collection;
    (eapply traces_get_json; [exact Hj|]);
    rewrite ?dict_get_default_get_or;
    traces_steps.
Qed.

Lemma calls_run (a : action) (rq : request) (kvs : document) (w : world) :
  authenticate_request rq = true ->
  json rq = Ok (VDict kvs) ->
  exists evs rest resp w',
    action_handler py_str a rq w = (Ok resp, w') /\
    w_log w' = w_log w ++ evs /\
    EvGetJson :: action_calls a kvs = evs ++ rest /\
    (status resp = 200 -> rest = []).
Proof.
  intros Ha Hj.
  pose proof (action_try_traces a rq kvs Hj) as Ht.
  destruct (traces_try_report _ _ w Ht)
    as (evs & rest & resp & w' & Hr & Hl & Hp & Hk).
  rewrite <- (allowed_run py_str a _ w Ha) in Hr.
  exists evs, rest, resp, w'. split; [exact Hr|]. split; [exact Hl|].
  split; [exact Hp|].
  intros Hs. destruct Hk as [[_ Hk] | (e & _ & ->)]; [exact Hk | discriminate].
Qed.

(** X6.  What an authenticated request does to the store is fixed by its
    body.  With the required fields present and the collection named in the
    body obtained, the run is the one operation of the endpoint on that
    collection, applied to the arguments as they stand in the body (the empty
    filter when update and delete have none; for find the skip and then the
    limit; for aggregate the pipeline and then the iteration): the response is
    the answer made from what the driver returned or raised, and the store is
    left as the driver left it.  The calls are made in the order of the body
    of the handler, the run stops at the first call that raises, and an
    answer 200 means that all the calls were made. *)
Theorem handler_calls_follow_the_body :
  forall (a : action) (h : option string) (kvs : document) (w : world),
    authenticate_request (post h (VDict kvs)) = true ->
    (forall (c : collection) (d1 : db),
        first_missing (required_fields a) kvs = None ->
        client_collection (get_or kvs "database" VNone)
                          (get_or kvs "collection" VNone) (w_db w) = (Ok c, d1) ->
        is_outcome_of (action_handler py_str a (post h (VDict kvs)) w)
                      (operation py_str a c kvs d1))
    /\
    exists evs rest resp w',
      action_handler py_str a (post h (VDict kvs)) w = (Ok resp, w') /\
      w_log w' = w_log w ++ evs /\
      EvGetJson :: action_calls a kvs = evs ++ rest /\
      (status resp = 200 -> rest = []).
Proof.
  intros a h kvs w Ha. split.
  - intros c d1 Hm Hc.
    exact (handler_denotes py_str a _ kvs w c d1 Ha eq_refl Hm Hc).
  - exact (calls_run a _ kvs w Ha eq_refl).
Qed.


Lemma filter_length_prefix {A} (f : A -> bool) (xs ys : list A) :
  (List.length (filter f xs) <= List.length (filter f (xs ++ ys)))%nat.
Proof. rewrite filter_app, length_app. lia. Qed.

Lemma action_calls_writes (a : action) (kvs : document) :
  (List.length (filter is_write_event (EvGetJson :: action_calls a kvs))
   <= writes_allowed a)%nat.
Proof.
  destruct a; simpl; try lia.
  unfold find_calls. destruct (truthy (get_or kvs "limit" VNone)); simpl; lia.
Qed.

(** X7.  Whatever the request, find and aggregate make no call that writes,
    and each of the other endpoints makes at most one. *)
Theorem at_most_one_write_per_request :
  forall (a : action) (rq : request) (w : world),
    exists evs resp w',
      action_handler py_str a rq w = (Ok resp, w') /\
      w_log w' = w_log w ++ evs /\
      (List.length (filter is_write_event evs) <= writes_allowed a)%nat.
Proof.
  intros a rq w. destruct (authenticate_request rq) eqn:Ha.
  - destruct (json rq) as [data|e] eqn:Hj.
    + destruct data as [| | | | |kvs|].
      6: { destruct (calls_run a rq kvs w Ha Hj)
             as (evs & rest & resp & w' & Hr & Hl & Hp & _).
           exists evs, resp, w'. split; [exact Hr|]. split; [exact Hl|].
           eapply Nat.le_trans; [apply (filter_length_prefix _ evs rest)|].
           rewrite <- Hp. apply action_calls_writes. }
      all: match type of Hj with
           | json _ = Ok ?d =>
               destruct (not_object_run a _ w d Ha Hj
                           ltac:(intros ?; discriminate))
                 as (msg & _ & _ & Hr)
           end;
        rewrite Hr; eexists [EvGetJson], _, _;
        (split; [reflexivity|]); (split; [reflexivity|]); simpl; lia.
    + rewrite (unparsable_run a rq w e Ha Hj).
      eexists [EvGetJson], _, _.
      split; [reflexivity|]. split; [reflexivity|]. simpl. lia.
  - rewrite (denied_run py_str a rq w Ha).
    exists [], unauthorized_response, w.
    split; [reflexivity|]. split; [rewrite app_nil_r; reflexivity|]. simpl. lia.
Qed.


(** **** Which fields of the body matter *)

Lemma handler_reads (a : action) (h : option string) (kvs kvs' : document)
      (w : world) :
  (forall k, In k (required_fields a) -> dict_get k kvs = dict_get k kvs') ->
  (forall k d, In (k, d) (optional_fields a) ->
               get_or kvs k d = get_or kvs' k d) ->
  action_handler py_str a (post h (VDict kvs)) w
  = action_handler py_str a (post h (VDict kvs')) w.
Proof.
  intros Hr Ho. destruct a;
    try (apply find_reads_five_fields;
         [ apply Hr; simpl; tauto | apply Hr; simpl; tauto
         | apply (Ho "filter"); simpl; tauto
         | apply (Ho "skip"); simpl; tauto
         | left; apply (Ho "limit"); simpl; tauto ]);
    cbn [action_handler];
    unfold insert_one, insert_many, aggregate, update_one, update_many,
      delete_one, delete_many;
    change (authenticate_request (post h (VDict kvs')))
      with (authenticate_request (post h (VDict kvs)));
    (destruct (authenticate_request (post h (VDict kvs))); [|reflexivity]);
    cbn [negb];
    unfold try_except, insert_one_try, insert_many_try, aggregate_try,
      update_one_try, update_many_try, delete_one_try, delete_many_try,
      bind, get_json, call, lift, post;
    cbn [json]; rewrite ?dict_get_default_get_or; cbn [getitem];
    repeat match goal with
           | |- context [dict_get ?k kvs'] =>
               rewrite <- (Hr k ltac:(simpl; tauto))
           | |- context [get_or kvs' ?k ?d] =>
               rewrite <- (Ho k d ltac:(simpl; tauto))
           end;
    reflexivity.
Qed.

Lemma not_in_eqb (k : string) (ks : list string) (k' : string) :
  ~ In k ks -> In k' ks -> String.eqb k' k = false.
Proof.
  intros Hn Hin. apply String.eqb_neq. intros ->. exact (Hn Hin).
Qed.

(** X8.  A field that the handler does not read changes nothing: the run on
    a body with such a field added is the run on the body without it.  (So
    [upsert] in an update, [sort] or [projection] in a find, are ignored.) *)
Theorem unread_field_is_ignored :
  forall (a : action) (h : option string) (kvs : document)
         (k : string) (v : value) (w : world),
    ~ In k (fields_read a) ->
    action_handler py_str a (post h (VDict (kvs ++ [(k, v)]))) w
    = action_handler py_str a (post h (VDict kvs)) w.
Proof.
  intros a h kvs k v w Hk. unfold fields_read in Hk.
  apply handler_reads.
  - intros k' Hin. apply dict_get_app_other.
    apply (not_in_eqb k _ k' Hk). apply in_or_app. left. exact Hin.
  - intros k' d Hin. unfold get_or. rewrite dict_get_app_other; [reflexivity|].
    apply (not_in_eqb k _ k' Hk). apply in_or_app. right.
    apply in_map_iff. exists (k', d). auto.
Qed.

Lemma in_prefix {A} (x : A) (xs ys zs : list A) :
  zs = xs ++ ys -> In x xs -> In x zs.
Proof. intros -> H. apply in_or_app. left. exact H. Qed.

(** X9.  Update and delete without a [filter] are update and delete with the
    filter [{}], which matches every document: the operation of the driver
    that is applied is the one with [{}] as its filter, its result makes the
    answer, and the store is left as that operation left it.  The call that
    is recorded carries [{}], and the run is the run on the body with
    [filter: {}] added.  So a deleteMany without [filter] asks the driver to
    delete every document of the collection. *)
Theorem absent_filter_matches_everything :
  forall (a : action) (h : option string) (kvs : document) (w : world),
    a = UpdateOne \/ a = UpdateMany \/ a = DeleteOne \/ a = DeleteMany ->
    dict_get "filter" kvs = None ->
    (forall (c : collection) (d1 : db),
        authenticate_request (post h (VDict kvs)) = true ->
        first_missing (required_fields a) kvs = None ->
        client_collection (get_or kvs "database" VNone)
                          (get_or kvs "collection" VNone) (w_db w) = (Ok c, d1) ->
        (a = UpdateOne ->
         is_outcome_of (action_handler py_str a (post h (VDict kvs)) w)
           (updated_one py_str c (VDict []) (get_or kvs "update" VNone) d1)) /\
        (a = UpdateMany ->
         is_outcome_of (action_handler py_str a (post h (VDict kvs)) w)
           (updated_many c (VDict []) (get_or kvs "update" VNone) d1)) /\
        (a = DeleteOne ->
         is_outcome_of (action_handler py_str a (post h (VDict kvs)) w)
           (deleted_one c (VDict []) d1)) /\
        (a = DeleteMany ->
         is_outcome_of (action_handler py_str a (post h (VDict kvs)) w)
           (deleted_many c (VDict []) d1)))
    /\
    (exists evs resp w',
        action_handler py_str a (post h (VDict kvs)) w = (Ok resp, w') /\
        w_log w' = w_log w ++ evs /\
        forall f u,
          In (EvUpdateOne f u) evs \/ In (EvUpdateMany f u) evs \/
          In (EvDeleteOne f) evs \/ In (EvDeleteMany f) evs ->
          f = VDict [])
    /\
    action_handler py_str a (post h (VDict kvs)) w
    = action_handler py_str a (post h (VDict (kvs ++ [("filter", VDict [])]))) w.
Proof.
  intros a h kvs w Hcases Hn.
  assert (Hg : get_or kvs "filter" (VDict []) = VDict [])
    by (unfold get_or; rewrite Hn; reflexivity).
  split; [|split].
  - intros c d1 Ha Hm Hc.
    pose proof (handler_denotes py_str a _ kvs w c d1 Ha eq_refl Hm Hc) as Hd.
    split; [|split; [|split]]; intros ->; cbn [operation] in Hd;
      rewrite Hg in Hd; exact Hd.
  - destruct (authenticate_request (post h (VDict kvs))) eqn:Ha.
    + destruct (calls_run a _ kvs w Ha eq_refl)
        as (evs & rest & resp & w' & Hr & Hl & Hp & _).
      exists evs, resp, w'. split; [exact Hr|]. split; [exact Hl|].
      intros f u Hin.
      destruct Hin as [Hin | [Hin | [Hin | Hin]]];
        apply (in_prefix _ _ _ _ Hp) in Hin;
        destruct Hcases as [-> | [-> | [-> | ->]]]; simpl in Hin;
        rewrite Hg in Hin;
        repeat (destruct Hin as [Hin|Hin]; try discriminate);
        try contradiction;
        injection Hin as <-; reflexivity.
    + rewrite (denied_run py_str a _ w Ha).
      exists [], unauthorized_response, w.
      split; [reflexivity|]. split; [rewrite app_nil_r; reflexivity|].
      intros f u [[] | [[] | [[] | []]]].
  - apply handler_reads.
    + intros k Hin. symmetry. apply dict_get_app_other.
      destruct Hcases as [-> | [-> | [-> | ->]]]; simpl in Hin;
        repeat (destruct Hin as [<-|Hin]; [reflexivity|]); contradiction.
    + intros k d Hin.
      destruct Hcases as [-> | [-> | [-> | ->]]]; simpl in Hin;
        (destruct Hin as [Hin|[]]); injection Hin as <- <-;
        unfold get_or; rewrite Hn, (dict_get_app_absent _ _ _ Hn); reflexivity.
Qed.


(** **** What the answers 200 of the other endpoints hold *)

Ltac run_cases H :=
  repeat match type of H with
         | context [match ?x with (_, _) => _ end] => destruct x as [[?|?] ?] eqn:?
         | context [match ?x with Ok _ => _ | Raise _ => _ end] => destruct x eqn:?
         end.

Ltac call_cases :=
  repeat match goal with
         | H : (let (_, _) := ?op in _) = (_, _) |- _ =>
             destruct op as [? ?] eqn:?; injection H as ? ?; subst
         end.

Lemma update_many_ok (rq : request) (w w' : world) (resp : response) :
  update_many_try rq w = (Ok resp, w') ->
  exists data f u c d r d',
    json rq = Ok data /\
    dict_get_default data "filter" (VDict []) = Ok f /\
    getitem data "update" = Ok u /\
    coll_update_many c f u d = (Ok r, d') /\
    resp = {| body := VDict [("matchedCount", VInt (matched_count r));
                             ("modifiedCount", VInt (modified_count r))];
              status := 200 |}.
Proof.
  intros H.
  unfold update_many_try, bind, get_json, get_collection, call, lift in H.
  run_cases H; try discriminate. call_cases.
  apply respond_inv in H. destruct H as (-> & _ & _).
  do 7 eexists.
  split; [reflexivity|]. split; [eassumption|]. split; [eassumption|].
  split; [eassumption | reflexivity].
Qed.

(** X10.  A successful updateMany answers with exactly two fields, the
    numbers of documents matched and modified that the driver reported for
    the body's filter (or [{}]) and update; there is no [upsertedId]. *)
Theorem update_many_response_shape :
  forall (rq : request) (w w' : world) (resp : response),
    update_many rq w = (Ok resp, w') ->
    status resp = 200 ->
    exists data f u c d r d',
      json rq = Ok data /\
      dict_get_default data "filter" (VDict []) = Ok f /\
      getitem data "update" = Ok u /\
      coll_update_many c f u d = (Ok r, d') /\
      body resp = VDict [("matchedCount", VInt (matched_count r));
                         ("modifiedCount", VInt (modified_count r))].
Proof.
  intros rq w w' resp H Hs.
  apply (ok_200_allowed py_str UpdateMany) in H; [|exact Hs].
  cbn [action_try] in H. apply update_many_ok in H.
  destruct H as (data & f & u & c & d & r & d' & H1 & H2 & H3 & H4 & ->).
  exists data, f, u, c, d, r, d'. auto.
Qed.

Lemma delete_one_ok (rq : request) (w w' : world) (resp : response) :
  delete_one_try rq w = (Ok resp, w') ->
  exists data f c d n d',
    json rq = Ok data /\
    dict_get_default data "filter" (VDict []) = Ok f /\
    coll_delete_one c f d = (Ok n, d') /\
    resp = {| body := VDict [("deletedCount", VInt n)]; status := 200 |}.
Proof.
  intros H.
  unfold delete_one_try, bind, get_json, get_collection, call, lift in H.
  run_cases H; try discriminate. call_cases.
  apply respond_inv in H. destruct H as (-> & _ & _).
  do 6 eexists.
  split; [reflexivity|]. split; [eassumption|].
  split; [eassumption | reflexivity].
Qed.

Lemma delete_many_ok (rq : request) (w w' : world) (resp : response) :
  delete_many_try rq w = (Ok resp, w') ->
  exists data f c d n d',
    json rq = Ok data /\
    dict_get_default data "filter" (VDict []) = Ok f /\
    coll_delete_many c f d = (Ok n, d') /\
    resp = {| body := VDict [("deletedCount", VInt n)]; status := 200 |}.
Proof.
  intros H.
  unfold delete_many_try, bind, get_json, get_collection, call, lift in H.
  run_cases H; try discriminate. call_cases.
  apply respond_inv in H. destruct H as (-> & _ & _).
  do 6 eexists.
  split; [reflexivity|]. split; [eassumption|].
  split; [eassumption | reflexivity].
Qed.

(** X11.  A successful deleteOne or deleteMany answers [{deletedCount: n}]
    where [n] is what the driver's [delete_one], respectively [delete_many],
    returned for the body's filter (or [{}]). *)
Theorem delete_response_shape :
  forall (rq : request) (w w' : world) (resp : response),
    status resp = 200 ->
    (delete_one rq w = (Ok resp, w') ->
     exists data f c d n d',
       json rq = Ok data /\
       dict_get_default data "filter" (VDict []) = Ok f /\
       coll_delete_one c f d = (Ok n, d') /\
       body resp = VDict [("deletedCount", VInt n)])
    /\
    (delete_many rq w = (Ok resp, w') ->
     exists data f c d n d',
       json rq = Ok data /\
       dict_get_default data "filter" (VDict []) = Ok f /\
       coll_delete_many c f d = (Ok n, d') /\
       body resp = VDict [("deletedCount", VInt n)]).
Proof.
  intros rq w w' resp Hs. split; intros H.
  - apply (ok_200_allowed py_str DeleteOne) in H; [|exact Hs].
    cbn [action_try] in H. apply delete_one_ok in H.
    destruct H as (data & f & c & d & n & d' & H1 & H2 & H3 & ->).
    exists data, f, c, d, n, d'. auto.
  - apply (ok_200_allowed py_str DeleteMany) in H; [|exact Hs].
    cbn [action_try] in H. apply delete_many_ok in H.
    destruct H as (data & f & c & d & n & d' & H1 & H2 & H3 & ->).
    exists data, f, c, d, n, d'. auto.
Qed.


(** **** The documents of find and aggregate *)

Lemma dict_get_set_other (k k' : string) (v : value) (d : document) :
  String.eqb k k' = false ->
  dict_get k (dict_set k' v d) = dict_get k d.
Proof.
  intros Hk. induction d as [|[k0 v0] d IH]; simpl.
  - rewrite Hk. reflexivity.
  - destruct (String.eqb k' k0) eqn:E; simpl.
    + apply String.eqb_eq in E. subst k0. rewrite Hk. reflexivity.
    + destruct (String.eqb k k0); [reflexivity | exact IH].
Qed.

Lemma json_safe_field (kvs : document) (k : string) (v : value) :
  json_safe (VDict kvs) = true -> dict_get k kvs = Some v -> json_safe v = true.
Proof.
  change (json_safe (VDict kvs))
    with (forallb (fun kv => json_safe (snd kv)) kvs).
  induction kvs as [|[k' v'] kvs IH]; simpl; [discriminate|].
  intros H. apply andb_true_iff in H. destruct H as [H1 H2].
  destruct (String.eqb k k'); [intros [= <-]; exact H1 | apply IH; exact H2].
Qed.

Lemma json_safe_documents (docs : list document) (doc : document) :
  json_safe (documents_body docs) = true -> In doc docs ->
  json_safe (VDict doc) = true.
Proof.
  unfold documents_body.
  change (json_safe (VDict [("documents", VList (map VDict docs))]))
    with (forallb json_safe (map VDict docs) && true).
  rewrite andb_true_r. intros H Hin. rewrite forallb_forall in H.
  apply H. apply in_map. exact Hin.
Qed.

Lemma stringify_id_rendered (doc : document) :
  rendered_from py_str doc (stringify_id py_str doc).
Proof.
  unfold rendered_from, stringify_id.
  destruct (dict_get "_id" doc) as [id|] eqn:E.
  - split.
    + intros k Hk. apply dict_get_set_other. apply String.eqb_neq. exact Hk.
    + split; [discriminate|]. intros id' [= <-].
      apply dict_get_set_same.
  - split; [reflexivity|]. split; [intros _; exact E | discriminate].
Qed.

Lemma stringified_rendered (yielded : list document) :
  Forall2 (rendered_from py_str) yielded (map (stringify_id py_str) yielded).
Proof.
  induction yielded as [|doc rest IH]; simpl.
  - constructor.
  - constructor; [apply stringify_id_rendered | exact IH].
Qed.

Lemma query_denotes (a : action) (h : option string) (kvs : document)
      (w : world) (c : collection) (d1 d2 : db) (yielded : list document) :
  authenticate_request (post h (VDict kvs)) = true ->
  first_missing (required_fields a) kvs = None ->
  client_collection (get_or kvs "database" VNone)
                    (get_or kvs "collection" VNone) (w_db w) = (Ok c, d1) ->
  (a = Find /\
   skipped_then_limited c (get_or kvs "filter" (VDict []))
     (get_or kvs "skip" (VInt 0)) (effective_limit kvs) d1 = (Ok yielded, d2))
  \/
  (a = Aggregate /\
   aggregated c (get_or kvs "pipeline" VNone) d1 = (Ok yielded, d2)) ->
  fst (action_handler py_str a (post h (VDict kvs)) w)
  = Ok (answer (Ok (documents_of py_str yielded))) /\
  w_db (snd (action_handler py_str a (post h (VDict kvs)) w)) = d2.
Proof.
  intros Ha Hm Hc Hq.
  pose proof (handler_denotes py_str a _ kvs w c d1 Ha eq_refl Hm Hc) as Hd.
  destruct Hq as [[-> Hq] | [-> Hq]];
    cbn [operation] in Hd; unfold returning, and_then in Hd;
    fold (@and_then D) in Hd;
    unfold skipped_then_limited, aggregated in Hq;
    unfold skipped_then_limited, aggregated in Hd;
    rewrite Hq in Hd; exact Hd.
Qed.

Lemma safe_documents_of (yielded : list document) (doc : document)
      (k : string) (v : value) :
  json_safe (documents_of py_str yielded) = true ->
  In doc yielded -> k <> "_id" -> dict_get k doc = Some v ->
  json_safe v = true.
Proof.
  intros Hsafe Hin Hk Hv.
  change (documents_of py_str yielded)
    with (documents_body (map (stringify_id py_str) yielded)) in Hsafe.
  assert (Hin' : In (stringify_id py_str doc) (map (stringify_id py_str) yielded))
    by (apply in_map; exact Hin).
  pose proof (json_safe_documents _ _ Hsafe Hin') as Hd.
  apply (json_safe_field _ k v Hd).
  destruct (stringify_id_rendered doc) as (Ho & _ & _).
  rewrite (Ho k Hk). exact Hv.
Qed.

(** X12.  When an authenticated find or aggregate has obtained its
    collection and the driver has yielded the documents [yielded] for the
    query of the body (leaving the store [d2]), the handler answers in that
    store, either 200 or 500 with the encoder's message; and the documents of
    an answer 200 are the yielded ones, as many and in the same order: each
    has, under every key other than [_id], the value of the yielded document,
    under [_id] the [str()] of the yielded value, and no [_id] when the
    yielded document has none. *)
Theorem returned_documents_are_the_yielded_ones :
  forall (a : action) (h : option string) (kvs : document) (w : world)
         (c : collection) (d1 d2 : db) (yielded : list document),
    authenticate_request (post h (VDict kvs)) = true ->
    first_missing (required_fields a) kvs = None ->
    client_collection (get_or kvs "database" VNone)
                      (get_or kvs "collection" VNone) (w_db w) = (Ok c, d1) ->
    (a = Find /\
     skipped_then_limited c (get_or kvs "filter" (VDict []))
       (get_or kvs "skip" (VInt 0)) (effective_limit kvs) d1 = (Ok yielded, d2))
    \/
    (a = Aggregate /\
     aggregated c (get_or kvs "pipeline" VNone) d1 = (Ok yielded, d2)) ->
    exists resp w',
      action_handler py_str a (post h (VDict kvs)) w = (Ok resp, w') /\
      w_db w' = d2 /\
      (status resp = 200 \/
       resp = {| body := VDict [("error", VStr NOT_SERIALIZABLE)];
                 status := 500 |}) /\
      (status resp = 200 ->
       exists documents,
         body resp = VDict [("documents", VList (map VDict documents))] /\
         Forall2 (rendered_from py_str) yielded documents /\
         List.length documents = List.length yielded).
Proof.
  intros a h kvs w c d1 d2 yielded Ha Hm Hc Hq.
  destruct (query_denotes a h kvs w c d1 d2 yielded Ha Hm Hc Hq) as [Hr Hw].
  destruct (action_handler py_str a (post h (VDict kvs)) w) as [r w'].
  cbn [fst snd] in Hr, Hw. subst r.
  eexists. exists w'. split; [reflexivity|]. split; [exact Hw|].
  unfold answer.
  destruct (json_safe (documents_of py_str yielded)).
  - split; [left; reflexivity|]. intros _.
    exists (map (stringify_id py_str) yielded).
    split; [reflexivity|]. split; [apply stringified_rendered|].
    apply length_map.
  - split; [right; reflexivity|]. intros Hs. discriminate Hs.
Qed.


(** **** Failures of the driver and of the encoder *)

Ltac known_fields Hm :=
  repeat match goal with
         | |- context [dict_get ?k ?kvs] =>
             let v := fresh "v" in
             let E := fresh "E" in
             destruct (present_fields _ kvs k Hm ltac:(simpl; tauto)) as [v E];
             rewrite E
         end.

(** X13.  When the driver refuses the database or collection name, the
    answer is 500 with the driver's text and no operation on documents has
    been attempted. *)
Theorem refused_collection_gets_500 :
  forall (a : action) (h : option string) (kvs : document) (w : world)
         (e : exn) (d : db),
    authenticate_request (post h (VDict kvs)) = true ->
    first_missing (required_fields a) kvs = None ->
    client_collection (get_or kvs "database" VNone)
                      (get_or kvs "collection" VNone) (w_db w) = (Raise e, d) ->
    action_handler py_str a (post h (VDict kvs)) w
    = (Ok {| body := VDict [("error", VStr (str_exn e))]; status := 500 |},
       {| w_db := d;
          w_log := (w_log w ++ [EvGetJson])
                   ++ [EvCollection (get_or kvs "database" VNone)
                                    (get_or kvs "collection" VNone)] |}).
Proof.
  intros a h kvs w e d Ha Hm Hc.
  rewrite (allowed_run py_str a _ w Ha).
  unfold get_or in *.
  destruct (present_fields _ kvs "database" Hm
              ltac:(destruct a; simpl; tauto)) as [vd Ed].
  destruct (present_fields _ kvs "collection" Hm
              ltac:(destruct a; simpl; tauto)) as [vc Ec].
  rewrite Ed, Ec in *.
  destruct a; unfold_tries;
    unfold try_except, bind, get_json, get_collection, call, lift, post;
    cbn [json getitem dict_get_default w_db w_log];
    rewrite ?Ed, ?Ec;
    known_fields Hm;
    repeat match goal with
           | |- context [match dict_get ?k kvs with _ => _ end] =>
               destruct (dict_get k kvs)
           end;
    rewrite Hc; apply report_error_run.
Qed.


(** X14.  Find and aggregate answer 200 only when no document that the
    driver yielded for the query of the body holds, under a key other than
    [_id], a value that the JSON encoder refuses (an [ObjectId], at any
    depth): a collection with one such document cannot be listed. *)
Theorem answer_200_means_encodable_documents :
  forall (a : action) (h : option string) (kvs : document) (w w' : world)
         (resp : response) (c : collection) (d1 d2 : db)
         (yielded : list document),
    authenticate_request (post h (VDict kvs)) = true ->
    first_missing (required_fields a) kvs = None ->
    client_collection (get_or kvs "database" VNone)
                      (get_or kvs "collection" VNone) (w_db w) = (Ok c, d1) ->
    (a = Find /\
     skipped_then_limited c (get_or kvs "filter" (VDict []))
       (get_or kvs "skip" (VInt 0)) (effective_limit kvs) d1 = (Ok yielded, d2))
    \/
    (a = Aggregate /\
     aggregated c (get_or kvs "pipeline" VNone) d1 = (Ok yielded, d2)) ->
    action_handler py_str a (post h (VDict kvs)) w = (Ok resp, w') ->
    status resp = 200 ->
    forall doc k v,
      In doc yielded -> k <> "_id" -> dict_get k doc = Some v ->
      json_safe v = true.
Proof.
  intros a h kvs w w' resp c d1 d2 yielded Ha Hm Hc Hq H Hs doc k v.
  destruct (query_denotes a h kvs w c d1 d2 yielded Ha Hm Hc Hq) as [Hr _].
  rewrite H in Hr. cbn [fst] in Hr. unfold answer in Hr.
  destruct (json_safe (documents_of py_str yielded)) eqn:Hsafe.
  - apply safe_documents_of. exact Hsafe.
  - assert (Hresp : status resp = 500) by (injection Hr as ->; reflexivity).
    rewrite Hresp in Hs. discriminate Hs.
Qed.


(** X15.  An aggregate whose calls all succeed but whose cursor yields a
    document with a value that cannot be encoded under a key other than [_id]
    is answered 500 with the encoder's message, after the pipeline has been
    run. *)
Theorem aggregate_with_unencodable_document_gets_500 :
  forall (h : option string) (kvs : document) (w : world)
         (c : collection) (cur : cursor) (d1 d2 d3 : db)
         (yielded : list document) (doc : document) (k : string) (v : value),
    authenticate_request (post h (VDict kvs)) = true ->
    first_missing (required_fields Aggregate) kvs = None ->
    client_collection (get_or kvs "database" VNone)
                      (get_or kvs "collection" VNone) (w_db w) = (Ok c, d1) ->
    coll_aggregate c (get_or kvs "pipeline" VNone) d1 = (Ok cur, d2) ->
    cursor_iter cur d2 = (Ok yielded, d3) ->
    In doc yielded -> k <> "_id" -> dict_get k doc = Some v ->
    json_safe v = false ->
    exists w',
      aggregate py_str (post h (VDict kvs)) w
      = (Ok {| body := VDict [("error", VStr NOT_SERIALIZABLE)]; status := 500 |}, w')
      /\ w_db w' = d3
      /\ In (EvAggregate (get_or kvs "pipeline" VNone)) (w_log w').
Proof.
  intros h kvs w c cur d1 d2 d3 yielded doc k v Ha Hm Hc Hg Hi Hin Hk Hv Hns.
  assert (Hbad : json_safe (documents_body (collect py_str yielded)) = false).
  { destruct (json_safe (documents_body (collect py_str yielded))) eqn:Hs;
      [|reflexivity].
    rewrite collect_map in Hs.
    pose proof (json_safe_documents _ _ Hs
                  (in_map (stringify_id py_str) _ _ Hin)) as Hd.
    destruct (stringify_id_rendered doc) as (Ho & _ & _).
    rewrite <- (Ho k Hk) in Hv.
    rewrite (json_safe_field _ k v Hd Hv) in Hns. discriminate. }
  unfold get_or in Hc, Hg |- *.
  destruct (present_fields _ kvs "database" Hm ltac:(simpl; tauto)) as [vd Ed].
  destruct (present_fields _ kvs "collection" Hm ltac:(simpl; tauto)) as [vc Ec].
  destruct (present_fields _ kvs "pipeline" Hm ltac:(simpl; tauto)) as [vp Ep].
  rewrite Ed, Ec in Hc. rewrite Ep in Hg |- *.
  unfold aggregate. rewrite Ha. cbn [negb].
  unfold try_except, aggregate_try, bind, get_json, get_collection, call, lift,
    post, respond, jsonify.
  cbn [json getitem w_db w_log]. rewrite Ed, Ec, Ep, Hc.
  cbn [w_db w_log]. rewrite Hg. cbn [w_db w_log]. rewrite Hi.
  rewrite Hbad. cbn [w_db w_log].
  eexists. split; [apply report_error_run|]. split; [reflexivity|].
  cbn [w_log]. apply in_or_app. left. apply in_or_app. right. left. reflexivity.
Qed.

End FurtherHandlerProperties.

(** *** Authentication: payloads that the decoder refuses or reads through *)

(** X16.  A payload with a character above 127 anywhere is denied, even when
    the characters around it are the encoding of the right credentials. *)
Theorem non_ascii_payload_is_denied :
  forall (payload : string) (c : Z),
    In c (codepoints payload) -> 128 <= c ->
    authenticate_header ("Basic " ++ payload) = false.
Proof.
  intros payload c Hin Hc. unfold authenticate_header.
  rewrite (startswith_prefix "Basic " payload). cbn [negb].
  unfold check_credentials.
  change (slice_from 6 ("Basic " ++ payload)) with payload.
  unfold b64decode, encode_ascii.
  destruct (forallb (fun c => c <? 128) (codepoints payload)) eqn:E;
    [|reflexivity].
  rewrite forallb_forall in E. specialize (E c Hin).
  apply Z.ltb_lt in E. lia.
Qed.

(** X17.  ASCII characters outside the base64 alphabet (spaces, line breaks,
    punctuation) are read through: wherever they stand in the payload, the
    decision is the one for the payload without them. *)
Theorem characters_outside_the_alphabet_do_not_count :
  forall cs : list Z,
    Forall is_ascii cs ->
    authenticate_header ("Basic " ++ string_of_list_ascii (map chr cs))
    = authenticate_header
        ("Basic " ++ string_of_list_ascii (map chr (filter is_base64_char cs))).
Proof.
  intros cs Hcs.
  assert (Hf : Forall is_ascii (filter is_base64_char cs)).
  { rewrite Forall_forall in *. intros c Hin. apply filter_In in Hin.
    apply Hcs. tauto. }
  unfold authenticate_header. rewrite !startswith_prefix. cbn [negb].
  unfold check_credentials.
  change (slice_from 6 ("Basic " ++ ?p)) with p.
  unfold b64decode.
  rewrite (encode_ascii_of_chars cs Hcs), (encode_ascii_of_chars _ Hf).
  rewrite a2b_base64_skips_other_characters. reflexivity.
Qed.

Lemma a2b_base64_unpadded (cs : list Z) :
  ~ In BASE64_PAD cs ->
  forall quad_pos leftchar pads,
    0 <= quad_pos < 4 ->
    (quad_pos + count_digits cs) mod 4 <> 0 ->
    a2b_base64 quad_pos leftchar pads cs = None.
Proof.
  unfold count_digits.
  induction cs as [|c cs IH]; intros Hp q l p Hq Hm.
  - simpl in *. rewrite Z.add_0_r in Hm. rewrite Z.mod_small in Hm by lia.
    destruct (Z.eqb_spec q 0); [contradiction | reflexivity].
  - assert (Hc : (c =? BASE64_PAD) = false).
    { apply Z.eqb_neq. intros ->. apply Hp. left. reflexivity. }
    assert (Hp' : ~ In BASE64_PAD cs) by (intros H; apply Hp; right; exact H).
    cbn [a2b_base64 filter] in *. rewrite Hc.
    destruct (table_a2b_base64 c) as [d|].
    + cbn [List.length] in Hm. rewrite Nat2Z.inj_succ in Hm.
      destruct (Z.eqb_spec q 0) as [->|H0].
      { apply (IH Hp'); [lia|]. intros H. apply Hm. rewrite <- H. f_equal. lia. }
      destruct (Z.eqb_spec q 1) as [->|H1].
      { rewrite (IH Hp'); [reflexivity | lia |].
        intros H. apply Hm. rewrite <- H. f_equal. lia. }
      destruct (Z.eqb_spec q 2) as [->|H2].
      { rewrite (IH Hp'); [reflexivity | lia |].
        intros H. apply Hm. rewrite <- H. f_equal. lia. }
      assert (q = 3) by lia. subst q.
      rewrite (IH Hp'); [reflexivity | lia |].
      intros H. apply Hm.
      replace (3 + Z.succ (Z.of_nat (List.length
                 (filter (fun c0 => match table_a2b_base64 c0 with
                                    | Some _ => true
                                    | None => false
                                    end) cs))))
        with (0 + Z.of_nat (List.length
                 (filter (fun c0 => match table_a2b_base64 c0 with
                                    | Some _ => true
                                    | None => false
                                    end) cs)) + 1 * 4) by lia.
      rewrite Z.mod_add by lia. exact H.
    + apply (IH Hp'); assumption.
Qed.

(** X18.  A payload without [=] whose number of base64 digits is not a
    multiple of four is refused by the decoder, so the header is denied: a
    client that leaves the padding out is turned away. *)
Theorem unpadded_payload_is_denied :
  forall cs : list Z,
    Forall is_ascii cs ->
    ~ In BASE64_PAD cs ->
    count_digits cs mod 4 <> 0 ->
    authenticate_header ("Basic " ++ string_of_list_ascii (map chr cs)) = false.
Proof.
  intros cs Hcs Hp Hm.
  unfold authenticate_header. rewrite startswith_prefix. cbn [negb].
  unfold check_credentials.
  change (slice_from 6 ("Basic " ++ ?p)) with p.
  unfold b64decode. rewrite (encode_ascii_of_chars cs Hcs).
  rewrite (a2b_base64_unpadded cs Hp 0 0 0); [reflexivity | lia | exact Hm].
Qed.

(** *** Runs for the further properties *)

Lemma is_ascii_by_check (cs : list Z) :
  forallb (fun c => (0 <=? c) && (c <? 128)) cs = true -> Forall is_ascii cs.
Proof.
  intros H. rewrite forallb_forall in H. apply Forall_forall. intros c Hin.
  specialize (H c Hin). apply andb_true_iff in H. destruct H as [H1 H2].
  apply Z.leb_le in H1. apply Z.ltb_lt in H2. split; assumption.
Qed.

Lemma not_in_by_check (x : Z) (cs : list Z) :
  forallb (fun c => negb (c =? x)) cs = true -> ~ In x cs.
Proof.
  intros H Hin. rewrite forallb_forall in H. specialize (H x Hin).
  rewrite Z.eqb_refl in H. discriminate.
Qed.

Lemma longer_text_witness :
  b64decode (b64encode (codepoints "testuser:testpass:x"))
  = Some (codepoints "testuser:testpass:x") /\
  utf8_decode (codepoints "testuser:testpass:x")
  = Some (codepoints "testuser:testpass:x") /\
  (authenticate_header
     ("Basic " ++ b64encode (codepoints "testuser:testpass:x")) = true
   <-> codepoints "testuser:testpass:x" = codepoints "testuser:testpass").
Proof.
  split; [vm_compute; reflexivity|]. split; [vm_compute; reflexivity|].
  apply (only_one_text_is_accepted
           (b64encode (codepoints "testuser:testpass:x"))
           (codepoints "testuser:testpass:x")
           (codepoints "testuser:testpass:x"));
    vm_compute; reflexivity.
Defined.

Lemma other_client_witness :
  Forall is_ascii (codepoints "alice") /\
  Forall is_ascii (codepoints "secret") /\
  (authenticate_header (basic_header (codepoints "alice") (codepoints "secret"))
   = true
   <-> codepoints "alice" = codepoints USERNAME /\
       codepoints "secret" = codepoints PASSWORD).
Proof.
  assert (Ha : Forall is_ascii (codepoints "alice"))
    by (apply is_ascii_by_check; vm_compute; reflexivity).
  assert (Hs : Forall is_ascii (codepoints "secret"))
    by (apply is_ascii_by_check; vm_compute; reflexivity).
  split; [exact Ha|]. split; [exact Hs|].
  exact (standard_client_is_judged_by_its_credentials _ _ Ha Hs).
Defined.

Lemma garbage_body_witness :
  authenticate_request (post_garbage (Some GOOD_HEADER)) = true /\
  fst (@action_handler MemDriver mem_str DeleteMany
         (post_garbage (Some GOOD_HEADER)) five_items)
  = Ok {| body := VDict [("error",
            VStr "400 Bad Request: The browser (or proxy) sent a request that this server could not understand.")];
          status := 500 |}.
Proof.
  split; [vm_compute; reflexivity|].
  rewrite (@unparsable_body_gets_500 MemDriver mem_str DeleteMany
             (post_garbage (Some GOOD_HEADER)) five_items _
             ltac:(vm_compute; reflexivity) eq_refl).
  reflexivity.
Defined.

Lemma list_body_witness :
  authenticate_request (post (Some GOOD_HEADER) (VList [])) = true /\
  exists msg,
    getitem (VList []) "database" = Raise (TypeError msg) /\
    msg <> "" /\
    @action_handler MemDriver mem_str InsertOne
      (post (Some GOOD_HEADER) (VList [])) five_items
    = (Ok {| body := VDict [("error", VStr msg)]; status := 500 |},
       {| w_db := w_db five_items; w_log := w_log five_items ++ [EvGetJson] |}).
Proof.
  split; [vm_compute; reflexivity|].
  apply (@body_that_is_not_an_object_gets_500 MemDriver mem_str InsertOne
           (post (Some GOOD_HEADER) (VList [])) five_items (VList [])).
  - vm_compute. reflexivity.
  - reflexivity.
  - intros kvs. discriminate.
Defined.

Lemma insert_calls_witness :
  authenticate_request (post (Some GOOD_HEADER) (in_coll [("document", item 1)]))
  = true /\
  @is_outcome_of MemDriver
    (@action_handler MemDriver mem_str InsertOne
       (post (Some GOOD_HEADER) (in_coll [("document", item 1)])) fresh)
    (@returning MemDriver _ _
       (@coll_insert_one MemDriver ("test_db", "items") (item 1))
       (fun id => VDict [("insertedId", VStr (mem_str id));
                         ("insertedCount", VInt 1)])
       (w_db fresh)) /\
  exists evs rest resp w',
    @action_handler MemDriver mem_str InsertOne
      (post (Some GOOD_HEADER) (in_coll [("document", item 1)])) fresh
    = (Ok resp, w') /\
    w_log w' = w_log fresh ++ evs /\
    [EvGetJson; EvCollection (VStr "test_db") (VStr "items");
     EvInsertOne (item 1)] = evs ++ rest /\
    (status resp = 200 -> rest = []).
Proof.
  split; [vm_compute; reflexivity|].
  pose proof (@handler_calls_follow_the_body MemDriver mem_str InsertOne
                (Some GOOD_HEADER)
                [("database", VStr "test_db"); ("collection", VStr "items");
                 ("document", item 1)] fresh eq_refl) as [Hd Hl].
  split; [|exact Hl].
  exact (Hd ("test_db", "items") (w_db fresh) eq_refl eq_refl).
Defined.

Lemma upsert_field_witness :
  ~ In "upsert" (fields_read UpdateOne) /\
  @action_handler MemDriver mem_str UpdateOne
    (post (Some GOOD_HEADER)
          (VDict ([("database", VStr "test_db"); ("collection", VStr "items");
                   ("filter", VDict [("n", VInt 99)]); ("update", set_x)]
                  ++ [("upsert", VBool true)]))) five_items
  = @action_handler MemDriver mem_str UpdateOne
      (post (Some GOOD_HEADER)
            (VDict [("database", VStr "test_db"); ("collection", VStr "items");
                    ("filter", VDict [("n", VInt 99)]); ("update", set_x)]))
      five_items.
Proof.
  assert (Hn : ~ In "upsert" (fields_read UpdateOne)).
  { intros H. simpl in H.
    repeat (destruct H as [H|H]; [discriminate|]). exact H. }
  split; [exact Hn|].
  apply (@unread_field_is_ignored MemDriver mem_str UpdateOne). exact Hn.
Defined.

Lemma delete_without_filter_witness :
  dict_get "filter" items_only = None /\
  @is_outcome_of MemDriver
    (@action_handler MemDriver mem_str DeleteMany (authed []) five_items)
    (@deleted_many MemDriver ("test_db", "items") (VDict []) (w_db five_items)) /\
  @action_handler MemDriver mem_str DeleteMany (authed []) five_items
  = @action_handler MemDriver mem_str DeleteMany
      (post (Some GOOD_HEADER) (VDict (items_only ++ [("filter", VDict [])])))
      five_items.
Proof.
  split; [reflexivity|].
  pose proof (@absent_filter_matches_everything MemDriver mem_str DeleteMany
                (Some GOOD_HEADER) items_only five_items
                (or_intror (or_intror (or_intror eq_refl))) eq_refl)
    as [Hd [_ He]].
  split; [|exact He].
  destruct (Hd ("test_db", "items") (w_db five_items) eq_refl eq_refl eq_refl)
    as (_ & _ & _ & Hm).
  exact (Hm eq_refl).
Defined.

Lemma update_all_witness :
  fst (@update_many MemDriver update_all_request five_items)
  = Ok all_updated_response /\
  status all_updated_response = 200 /\
  exists data f u c d r d',
    json update_all_request = Ok data /\
    dict_get_default data "filter" (VDict []) = Ok f /\
    getitem data "update" = Ok u /\
    @coll_update_many MemDriver c f u d = (Ok r, d') /\
    body all_updated_response
    = VDict [("matchedCount", VInt (matched_count r));
             ("modifiedCount", VInt (modified_count r))].
Proof.
  split; [vm_compute; reflexivity|]. split; [reflexivity|].
  apply (@update_many_response_shape MemDriver mem_str update_all_request
           five_items
           (snd (@update_many MemDriver update_all_request five_items))
           all_updated_response).
  - vm_compute. reflexivity.
  - reflexivity.
Defined.

Lemma delete_all_witness :
  fst (@delete_many MemDriver delete_all_request five_items)
  = Ok all_deleted_response /\
  status all_deleted_response = 200 /\
  exists data f c d n d',
    json delete_all_request = Ok data /\
    dict_get_default data "filter" (VDict []) = Ok f /\
    @coll_delete_many MemDriver c f d = (Ok n, d') /\
    body all_deleted_response = VDict [("deletedCount", VInt n)].
Proof.
  split; [vm_compute; reflexivity|]. split; [reflexivity|].
  apply (proj2 (@delete_response_shape MemDriver mem_str delete_all_request
                  five_items
                  (snd (@delete_many MemDriver delete_all_request five_items))
                  all_deleted_response eq_refl)).
  vm_compute. reflexivity.
Defined.

Lemma five_documents_witness :
  authenticate_request (post (Some GOOD_HEADER) (VDict items_only)) = true /\
  @skipped_then_limited MemDriver ("test_db", "items") (VDict []) (VInt 0) None
    (w_db five_items) = (Ok five_yielded, w_db five_items) /\
  exists resp w',
    @action_handler MemDriver mem_str Find
      (post (Some GOOD_HEADER) (VDict items_only)) five_items = (Ok resp, w') /\
    w_db w' = w_db five_items /\
    (status resp = 200 \/
     resp = {| body := VDict [("error", VStr NOT_SERIALIZABLE)];
               status := 500 |}) /\
    (status resp = 200 ->
     exists documents,
       body resp = VDict [("documents", VList (map VDict documents))] /\
       Forall2 (rendered_from mem_str) five_yielded documents /\
       List.length documents = List.length five_yielded).
Proof.
  split; [vm_compute; reflexivity|]. split; [vm_compute; reflexivity|].
  apply (@returned_documents_are_the_yielded_ones MemDriver mem_str Find
           (Some GOOD_HEADER) items_only five_items
           ("test_db", "items") (w_db five_items) (w_db five_items)
           five_yielded).
  - vm_compute. reflexivity.
  - reflexivity.
  - vm_compute. reflexivity.
  - left. split; [reflexivity | vm_compute; reflexivity].
Defined.

Lemma empty_database_name_witness :
  authenticate_request (post (Some GOOD_HEADER) (VDict nameless)) = true /\
  first_missing (required_fields InsertOne) nameless = None /\
  @action_handler MemDriver mem_str InsertOne
    (post (Some GOOD_HEADER) (VDict nameless)) five_items
  = (Ok {| body := VDict [("error",
                           VStr "database name cannot be the empty string")];
           status := 500 |},
     {| w_db := w_db five_items;
        w_log := (w_log five_items ++ [EvGetJson])
                 ++ [EvCollection (VStr "") (VStr "items")] |}).
Proof.
  split; [vm_compute; reflexivity|]. split; [reflexivity|].
  apply (@refused_collection_gets_500 MemDriver mem_str InsertOne
           (Some GOOD_HEADER) nameless five_items
           (Raised "InvalidName" "database name cannot be the empty string")
           (w_db five_items)).
  - vm_compute. reflexivity.
  - reflexivity.
  - reflexivity.
Defined.

Lemma five_encodable_documents_witness :
  @action_handler MemDriver mem_str Find
    (post (Some GOOD_HEADER) (VDict items_only)) five_items
  = (Ok five_documents_response,
     snd (@action_handler MemDriver mem_str Find
            (post (Some GOOD_HEADER) (VDict items_only)) five_items)) /\
  status five_documents_response = 200 /\
  forall doc k v,
    In doc five_yielded -> k <> "_id" -> dict_get k doc = Some v ->
    json_safe v = true.
Proof.
  split; [vm_compute; reflexivity|]. split; [reflexivity|].
  apply (@answer_200_means_encodable_documents MemDriver mem_str Find
           (Some GOOD_HEADER) items_only five_items
           (snd (@action_handler MemDriver mem_str Find
                   (post (Some GOOD_HEADER) (VDict items_only)) five_items))
           five_documents_response
           ("test_db", "items") (w_db five_items) (w_db five_items)
           five_yielded).
  - vm_compute. reflexivity.
  - reflexivity.
  - vm_compute. reflexivity.
  - left. split; [reflexivity | vm_compute; reflexivity].
  - vm_compute. reflexivity.
  - reflexivity.
Defined.

Lemma reference_in_aggregate_witness :
  authenticate_request (post (Some GOOD_HEADER) (VDict list_all)) = true /\
  exists w',
    @aggregate MemDriver mem_str (post (Some GOOD_HEADER) (VDict list_all))
      with_reference
    = (Ok {| body := VDict [("error", VStr NOT_SERIALIZABLE)]; status := 500 |}, w')
    /\ w_db w' = w_db with_reference
    /\ In (EvAggregate (VList [])) (w_log w').
Proof.
  split; [vm_compute; reflexivity|].
  apply (@aggregate_with_unencodable_document_gets_500 MemDriver mem_str
           (Some GOOD_HEADER) list_all with_reference
           ("test_db", "items")
           {| cur_docs := [referring_document]; cur_skip := 0; cur_limit := 0 |}
           (w_db with_reference) (w_db with_reference) (w_db with_reference)
           [referring_document] referring_document "owner"
           (VObjectId (oid_bytes 7)));
    try (vm_compute; reflexivity).
  - left. reflexivity.
  - discriminate.
Defined.

Lemma accented_payload_witness :
  In 233 (codepoints (String (chr 233) "dGVzdHVzZXI6dGVzdHBhc3M=")) /\
  authenticate_header ("Basic " ++ String (chr 233) "dGVzdHVzZXI6dGVzdHBhc3M=")
  = false.
Proof.
  split; [left; reflexivity|].
  apply (non_ascii_payload_is_denied
           (String (chr 233) "dGVzdHVzZXI6dGVzdHBhc3M=") 233).
  - left. reflexivity.
  - lia.
Defined.

Lemma spaced_payload_witness :
  Forall is_ascii (codepoints "dGVzdHVz ZXI6dGVz dHBhc3M=") /\
  authenticate_header
    ("Basic " ++ string_of_list_ascii
                   (map chr (codepoints "dGVzdHVz ZXI6dGVz dHBhc3M=")))
  = authenticate_header
      ("Basic " ++ string_of_list_ascii
                     (map chr (filter is_base64_char
                                 (codepoints "dGVzdHVz ZXI6dGVz dHBhc3M=")))).
Proof.
  assert (H : Forall is_ascii (codepoints "dGVzdHVz ZXI6dGVz dHBhc3M="))
    by (apply is_ascii_by_check; vm_compute; reflexivity).
  split; [exact H|].
  exact (characters_outside_the_alphabet_do_not_count _ H).
Defined.

Lemma no_padding_witness :
  Forall is_ascii (codepoints "dGVzdHVzZXI6dGVzdHBhc3M") /\
  ~ In BASE64_PAD (codepoints "dGVzdHVzZXI6dGVzdHBhc3M") /\
  count_digits (codepoints "dGVzdHVzZXI6dGVzdHBhc3M") mod 4 <> 0 /\
  authenticate_header
    ("Basic " ++ string_of_list_ascii
                   (map chr (codepoints "dGVzdHVzZXI6dGVzdHBhc3M"))) = false.
Proof.
  assert (H1 : Forall is_ascii (codepoints "dGVzdHVzZXI6dGVzdHBhc3M"))
    by (apply is_ascii_by_check; vm_compute; reflexivity).
  assert (H2 : ~ In BASE64_PAD (codepoints "dGVzdHVzZXI6dGVzdHBhc3M"))
    by (apply not_in_by_check; vm_compute; reflexivity).
  assert (H3 : count_digits (codepoints "dGVzdHVzZXI6dGVzdHBhc3M") mod 4 <> 0)
    by (vm_compute; discriminate).
  split; [exact H1|]. split; [exact H2|]. split; [exact H3|].
  exact (unpadded_payload_is_denied _ H1 H2 H3).
Defined.
